(** * SEO audit tool: the extraction passes and the report helpers of SEO.py

    A shallow embedding of the analysis functions of [SEOAuditTool]
    (SEO.py) and the properties its specification states about them.

    Text.  A Python [str] is modelled by a Rocq [string] whose characters
    are read as the code points U+0000..U+00FF; [str.lower], [str.strip],
    [str.split], [str.count] and [str.replace] are Python's, restricted to
    that range.

    Libraries.  BeautifulSoup's parse tree is the inductive type
    [Soup.node]; the HTML parser itself, [json.loads] and the HTTP client
    are parameters of the functions that call them. *)

From Stdlib Require Import ZArith QArith Ascii String List Lia Bool DecimalString.
From stdpp Require Import gmap strings list.

Set Warnings "-register-all".
Local Open Scope Z_scope.

(** ** Python string primitives *)

Module PyStr.

(** [c.isspace()] for a code point below 256. *)
Definition isspace (c : ascii) : bool :=
  let n := N_of_ascii c in
  (((9 <=? n) && (n <=? 13)) || ((28 <=? n) && (n <=? 32))
   || (n =? 133) || (n =? 160))%N.

(** [c.lower()] for a code point below 256: A-Z and the upper-case
    Latin-1 letters U+00C0..U+00DE (U+00D7, the multiplication sign,
    is not a letter). *)
Definition lower_char (c : ascii) : ascii :=
  let n := N_of_ascii c in
  if (((65 <=? n) && (n <=? 90))
      || ((192 <=? n) && (n <=? 222) && negb (n =? 215)))%N
  then ascii_of_N (n + 32) else c.

Fixpoint lower (s : string) : string :=
  match s with
  | EmptyString => EmptyString
  | String c s' => String (lower_char c) (lower s')
  end.

Definition is_empty (s : string) : bool :=
  match s with EmptyString => true | String _ _ => false end.

Fixpoint lstrip (s : string) : string :=
  match s with
  | EmptyString => EmptyString
  | String c s' => if isspace c then lstrip s' else s
  end.

Fixpoint rstrip (s : string) : string :=
  match s with
  | EmptyString => EmptyString
  | String c s' =>
      let r := rstrip s' in
      if isspace c && is_empty r then EmptyString else String c r
  end.

(** [s.strip()]. *)
Definition strip (s : string) : string := rstrip (lstrip s).

(** [s.startswith(p)]. *)
Fixpoint startswith (p s : string) : bool :=
  match p, s with
  | EmptyString, _ => true
  | String a p', String b s' => if Ascii.eqb a b then startswith p' s' else false
  | String _ _, EmptyString => false
  end.

(** The scan of [s.count(sub)] for a non-empty [sub]: [skip] is the
    number of characters still covered by the match found last, so that
    the next match starts after it. *)
Fixpoint count_from (sub s : string) (skip : nat) : nat :=
  match s with
  | EmptyString => 0%nat
  | String _ s' =>
      match skip with
      | S k => count_from sub s' k
      | O => if startswith sub s
             then S (count_from sub s' (String.length sub - 1))
             else count_from sub s' 0
      end
  end.

(** [s.count(sub)]; for the empty [sub] Python answers [len(s) + 1]. *)
Definition count (s sub : string) : nat :=
  if is_empty sub then S (String.length s) else count_from sub s 0.

Fixpoint replace_from (old new s : string) (skip : nat) : string :=
  match s with
  | EmptyString => EmptyString
  | String c s' =>
      match skip with
      | S k => replace_from old new s' k
      | O => if startswith old s
             then new +:+ replace_from old new s' (String.length old - 1)
             else String c (replace_from old new s' 0)
      end
  end.

Fixpoint interleave (new s : string) : string :=
  match s with
  | EmptyString => new
  | String c s' => new +:+ String c (interleave new s')
  end.

(** [s.replace(old, new)]: every non-overlapping occurrence, left to
    right. *)
Definition replace (s old new : string) : string :=
  if is_empty old then interleave new s else replace_from old new s 0.

(** Does [s] begin with a character that is not whitespace? *)
Definition starts_word (s : string) : bool :=
  match s with
  | EmptyString => false
  | String c _ => negb (isspace c)
  end.

(** [s.split()]: the maximal runs of non-whitespace characters. *)
Fixpoint split (s : string) : list string :=
  match s with
  | EmptyString => []
  | String c s' =>
      if isspace c then split s'
      else match split s' with
           | w :: ws =>
               if starts_word s' then String c w :: ws
               else String c EmptyString :: w :: ws
           | [] => [String c EmptyString]
           end
  end.

(** [sep.join(l)]. *)
Fixpoint join (sep : string) (l : list string) : string :=
  match l with
  | [] => EmptyString
  | [w] => w
  | w :: l' => w +:+ sep +:+ join sep l'
  end.

(** [s[:n]] and [s[n:]] for [n >= 0]. *)
Fixpoint take (n : nat) (s : string) : string :=
  match n, s with
  | S k, String c s' => String c (take k s')
  | _, _ => EmptyString
  end.

Fixpoint drop (n : nat) (s : string) : string :=
  match n, s with
  | S k, String _ s' => drop k s'
  | _, _ => s
  end.

Definition len (s : string) : Z := Z.of_nat (String.length s).

End PyStr.

(** ** BeautifulSoup's parse tree *)

Module Soup.

(** The nodes of a parsed document.  [NavigableString] stands for the
    string classes that [get_text] collects on the tags the tool calls it
    on (NavigableString and CData), [Comment] for those it leaves out
    (Comment, Doctype, Declaration, ProcessingInstruction and, in the
    versions of the library that have them, the string classes of script,
    style and template contents).  Attribute values are strings: the
    multi-valued attributes (class, rel, ...) that the parser turns into
    lists are never read by the tool. *)
Inductive node : Type :=
| NavigableString (s : string)
| Comment (s : string)
| Tag (name : string) (attrs : gmap string string) (contents : list node).

(** [tag.descendants]: every node below [n], in document order. *)
Fixpoint descendants (n : node) : list node :=
  match n with
  | Tag _ _ cs =>
      (fix go (l : list node) : list node :=
         match l with
         | [] => []
         | c :: l' => c :: descendants c ++ go l'
         end) cs
  | _ => []
  end.

(** What the arguments of [find_all] select: a test on a tag's name and
    attributes. *)
Definition tag_filter : Type := string -> gmap string string -> bool.

(** [find_all('h1')]. *)
Definition by_name (n : string) : tag_filter :=
  fun name _ => bool_decide (name = n).

(** [find_all(['h1', 'h2', ...])]. *)
Definition by_names (ns : list string) : tag_filter :=
  fun name _ => bool_decide (name ∈ ns).

(** [find_all(name, attrs={k: v})]: the attribute is there with exactly
    that value. *)
Definition by_name_attr (n k v : string) : tag_filter :=
  fun name attrs => bool_decide (name = n) && bool_decide (attrs !! k = Some v).

(** [find_all(attrs={k: True})]: the attribute is there. *)
Definition by_attr_present (k : string) : tag_filter :=
  fun _ attrs => bool_decide (is_Some (attrs !! k)).

Definition selects (f : tag_filter) (n : node) : bool :=
  match n with
  | Tag name attrs _ => f name attrs
  | _ => false
  end.

Definition find_all (f : tag_filter) (root : node) : list node :=
  List.filter (selects f) (descendants root).

(** [find(...)]: the first result of [find_all], or None. *)
Definition find (f : tag_filter) (root : node) : option node :=
  head (find_all f root).

Definition text_of (n : node) : string :=
  match n with
  | NavigableString s => s
  | _ => EmptyString
  end.

(** [tag.get_text()]. *)
Definition get_text (n : node) : string :=
  String.concat EmptyString (map text_of (descendants n)).

(** [tag.get(k)] and [tag.get(k, default)]. *)
Definition get (n : node) (k : string) : option string :=
  match n with
  | Tag _ attrs _ => attrs !! k
  | _ => None
  end.

Definition get_default (n : node) (k default : string) : string :=
  match get n k with
  | Some v => v
  | None => default
  end.

(** [tag.string]: the only child when it is a string, the [.string] of
    the only child when it is a tag, otherwise None. *)
Fixpoint string_of (n : node) : option string :=
  match n with
  | NavigableString s => Some s
  | Comment s => Some s
  | Tag _ _ [c] => string_of c
  | Tag _ _ _ => None
  end.

(** [for t in soup(names): t.decompose()]: every selected tag is taken
    out of the tree together with its subtree. *)
Fixpoint decompose_all (f : tag_filter) (n : node) : node :=
  match n with
  | Tag name attrs cs =>
      Tag name attrs
        ((fix go (l : list node) : list node :=
            match l with
            | [] => []
            | c :: l' =>
                if selects f c then go l' else decompose_all f c :: go l'
            end) cs)
  | _ => n
  end.

(** The root object [BeautifulSoup(...)] returns. *)
Definition document (cs : list node) : node := Tag "[document]" ∅ cs.

End Soup.

(** ** Exceptions and JSON values *)

Inductive exn_class : Type :=
| JSONDecodeError
| TypeError
| AttributeError
| ValueError
| RecursionError
| RequestException      (* requests.exceptions.RequestException and subclasses *)
| OtherException.

(** An exception: its class and [str(e)]. *)
Record exn : Type := Exn { exn_cls : exn_class; exn_msg : string }.

(** A computation that returns or raises. *)
Definition result (A : Type) : Type := exn + A.

Definition ret {A : Type} (a : A) : result A := inr a.
Definition raise {A : Type} (c : exn_class) (msg : string) : result A :=
  inl (Exn c msg).
Definition bind {A B : Type} (m : result A) (k : A -> result B) : result B :=
  match m with
  | inl e => inl e
  | inr a => k a
  end.

Notation "'let*' x ':=' m 'in' k" := (bind m (fun x => k))
  (at level 10, x name, m at level 100, k at level 200).

(** What [json.loads] builds.  A finite float is given by its exact value;
    an object is the list of its bindings, keys distinct. *)
Inductive json : Type :=
| JNull
| JBool (b : bool)
| JInt (n : Z)
| JFloat (q : Q)
| JNaN
| JInfinity (negative : bool)
| JStr (s : string)
| JList (items : list json)
| JDict (bindings : list (string * json)).

Module Json.

(** [d[k]] / [k in d]. *)
Fixpoint lookup (k : string) (d : list (string * json)) : option json :=
  match d with
  | [] => None
  | (k', v) :: d' => if bool_decide (k' = k) then Some v else lookup k d'
  end.

(** [v.get(k, default)]; only a dict has [get]. *)
Definition get (v : json) (k : string) (default : json) : result json :=
  match v with
  | JDict d => ret (match lookup k d with Some x => x | None => default end)
  | _ => raise AttributeError "object has no attribute 'get'"
  end.

(** [bool(v)]. *)
Definition truthy (v : json) : bool :=
  match v with
  | JNull => false
  | JBool b => b
  | JInt n => negb (n =? 0)
  | JFloat q => negb (Qeq_bool q 0)
  | JNaN => true
  | JInfinity _ => true
  | JStr s => negb (PyStr.is_empty s)
  | JList l => match l with [] => false | _ => true end
  | JDict d => match d with [] => false | _ => true end
  end.

(** Lists and dicts cannot be put in a set. *)
Definition hashable (v : json) : bool :=
  match v with
  | JList _ | JDict _ => false
  | _ => true
  end.

(** The value of a number (bools are the ints 0 and 1). *)
Definition number (v : json) : option Q :=
  match v with
  | JBool b => Some (inject_Z (if b then 1 else 0))
  | JInt n => Some (inject_Z n)
  | JFloat q => Some q
  | _ => None
  end.

(** [a == b] for hashable values, as a set compares its elements. *)
Definition eqb (a b : json) : bool :=
  match number a, number b with
  | Some x, Some y => Qeq_bool x y
  | None, None =>
      match a, b with
      | JNull, JNull => true
      | JNaN, JNaN => true
      | JInfinity s, JInfinity s' => Bool.eqb s s'
      | JStr s, JStr s' => bool_decide (s = s')
      | _, _ => false
      end
  | _, _ => false
  end.

Fixpoint dedup (l : list json) : list json :=
  match l with
  | [] => []
  | x :: l' => x :: List.filter (fun y => negb (eqb x y)) (dedup l')
  end.

(** The message of the TypeError [set] raises at the first element it
    cannot hash. *)
Fixpoint unhashable_message (l : list json) : string :=
  match l with
  | [] => "unhashable type"
  | JList _ :: _ => "unhashable type: 'list'"
  | JDict _ :: _ => "unhashable type: 'dict'"
  | _ :: l' => unhashable_message l'
  end.

(** [list(set(l))].  Python leaves the order of the result open; the
    model lists the elements in order of first occurrence. *)
Definition list_set (l : list json) : result (list json) :=
  if forallb hashable l then ret (dedup l)
  else raise TypeError (unhashable_message l).

End Json.

(** ** The extractors of [SEOAuditTool] *)

Import Soup.

(** [extract_title_tag]. *)
Definition extract_title_tag (soup : node) : string :=
  match find (by_name "title") soup with
  | Some title_tag => PyStr.strip (get_text title_tag)
  | None => "No title tag found"
  end.

(** [extract_meta_description].  A tag is always true in a condition, so
    [meta_desc and meta_desc.get('content')] asks for a tag whose
    [content] is there and is not the empty string. *)
Definition extract_meta_description (soup : node) : string :=
  match find (by_name_attr "meta" "name" "description") soup with
  | Some meta_desc =>
      match get meta_desc "content" with
      | Some content =>
          if PyStr.is_empty content then "No meta description found"
          else PyStr.strip content
      | None => "No meta description found"
      end
  | None => "No meta description found"
  end.

Record keyword_frequency : Type := KeywordFrequency {
  total : Z;
  title : Z;
  headings : Z;
  body : Z
}.

Definition script_or_style : tag_filter := by_names ["script"; "style"].

Definition heading_names : list string := ["h1"; "h2"; "h3"; "h4"; "h5"; "h6"].

(** The body of [calculate_keyword_frequency] from the parsed document on. *)
Definition keyword_frequency_of (parsed : node) (keyword : string)
  : keyword_frequency :=
  let keyword_lower := PyStr.lower keyword in
  let soup := decompose_all script_or_style parsed in
  let all_text := PyStr.lower (get_text soup) in
  let total_count := Z.of_nat (PyStr.count all_text keyword_lower) in
  let title_count :=
    match find (by_name "title") soup with
    | Some title_text =>
        Z.of_nat (PyStr.count (PyStr.lower (get_text title_text)) keyword_lower)
    | None => 0
    end in
  let headings_text :=
    PyStr.join " "
      (map (fun h => PyStr.lower (get_text h))
           (find_all (by_names heading_names) soup)) in
  let headings_count := Z.of_nat (PyStr.count headings_text keyword_lower) in
  let body_count := Z.max 0 (total_count - title_count - headings_count) in
  {| total := total_count;
     title := title_count;
     headings := headings_count;
     body := body_count |}.

(** [calculate_keyword_frequency]; [parse] is
    [BeautifulSoup(_, 'html.parser')]. *)
Definition calculate_keyword_frequency (parse : string -> node)
    (html_content keyword : string) : keyword_frequency :=
  if PyStr.is_empty html_content || PyStr.is_empty keyword
  then {| total := 0; title := 0; headings := 0; body := 0 |}
  else keyword_frequency_of (parse html_content) keyword.

Record h1_analysis : Type := H1Analysis {
  count : Z;
  texts : list string;
  status : string
}.

Definition status_good : string := "Good".
Definition status_warning : string :=
  "Warning | It is generally recommended to only use one H1 Tag on a page.".
Definition status_missing : string := "Missing".

(** [analyze_h1_tags]. *)
Definition analyze_h1_tags (soup : node) : h1_analysis :=
  let h1_tags := find_all (by_name "h1") soup in
  let h1_texts := map (fun h1 => PyStr.strip (get_text h1)) h1_tags in
  let n := Z.of_nat (length h1_tags) in
  {| count := n;
     texts := h1_texts;
     status := if n =? 1 then status_good
               else if 1 <? n then status_warning
               else status_missing |}.

Record image_analysis : Type := ImageAnalysis {
  total_images : Z;
  missing_alt : Z;
  with_alt : Z
}.

(** The loop of [analyze_images] over the images still to visit. *)
Fixpoint count_missing_alt (images : list node) (missing : Z) : Z :=
  match images with
  | [] => missing
  | img :: rest =>
      let alt_text := PyStr.strip (get_default img "alt" "") in
      if PyStr.is_empty alt_text
      then count_missing_alt rest (missing + 1)
      else count_missing_alt rest missing
  end.

(** [analyze_images]; [base_url] is not used by the code. *)
Definition analyze_images (soup : node) (base_url : string) : image_analysis :=
  let images := find_all (by_name "img") soup in
  let n := Z.of_nat (length images) in
  let missing := count_missing_alt images 0 in
  {| total_images := n;
     missing_alt := missing;
     with_alt := n - missing |}.

Record schema_analysis : Type := SchemaAnalysis {
  has_schema : bool;
  json_ld_count : Z;
  microdata_count : Z;
  rdfa_count : Z;
  schema_types : list json
}.

(** [data['@type']] appended when [item] is a dict that has the key. *)
Definition type_of_item (item : json) : list json :=
  match item with
  | JDict d =>
      match Json.lookup "@type" d with
      | Some t => [t]
      | None => []
      end
  | _ => []
  end.

(** What one parsed JSON-LD payload appends to [schema_types]. *)
Definition types_of_data (data : json) : list json :=
  match data with
  | JDict _ => type_of_item data
  | JList items => flat_map type_of_item items
  | _ => []
  end.

(** [json.loads(script.string)]: a TypeError when [script.string] is
    None. *)
Definition loads_script (json_loads : string -> result json) (script : node)
  : result json :=
  match string_of script with
  | Some s => json_loads s
  | None => raise TypeError "the JSON object must be str, bytes or bytearray, not NoneType"
  end.

(** The loop over the JSON-LD scripts: [except (json.JSONDecodeError,
    TypeError): continue], any other exception leaves the function. *)
Fixpoint collect_types (json_loads : string -> result json)
    (scripts : list node) (schema_types : list json) : result (list json) :=
  match scripts with
  | [] => ret schema_types
  | script :: rest =>
      match loads_script json_loads script with
      | inr data =>
          collect_types json_loads rest (schema_types ++ types_of_data data)
      | inl (Exn JSONDecodeError _) | inl (Exn TypeError _) =>
          collect_types json_loads rest schema_types
      | inl e => inl e
      end
  end.

(** [check_schema_markup]. *)
Definition check_schema_markup (json_loads : string -> result json)
    (soup : node) : result schema_analysis :=
  let json_ld := find_all (by_name_attr "script" "type" "application/ld+json") soup in
  let microdata := find_all (by_attr_present "itemscope") soup in
  let rdfa := find_all (by_attr_present "typeof") soup in
  let present :=
    (0 <? Z.of_nat (length json_ld)) || (0 <? Z.of_nat (length microdata))
    || (0 <? Z.of_nat (length rdfa)) in
  let* collected := collect_types json_loads json_ld [] in
  let* types := Json.list_set collected in
  ret {| has_schema := present;
         json_ld_count := Z.of_nat (length json_ld);
         microdata_count := Z.of_nat (length microdata);
         rdfa_count := Z.of_nat (length rdfa);
         schema_types := types |}.

(** ** The performance enricher *)

(** What the program does to the outside world, in order.  A printed line
    is kept as the bytes of the literal in the source file. *)
Inductive event : Type :=
| Print (line : string)
| HttpGet (url : string) (params : list (string * string)) (timeout : Z).

(** An HTTP response as the code reads it: the status, the message of the
    HTTPError that [raise_for_status()] builds, the body, and what
    [json()] returns or raises. *)
Record response : Type := Response {
  status_code : Z;
  http_error : string;
  text : string;
  json_body : result json
}.

(** [response.raise_for_status()]: an HTTPError for 4xx and 5xx. *)
Definition raise_for_status (r : response) : result unit :=
  if (400 <=? status_code r) && (status_code r <? 600)
  then raise RequestException (http_error r)
  else ret tt.

Record pagespeed : Type := PageSpeed {
  performance_score : Z;
  fcp : json;
  fcp_numeric : json
}.

(** [str(n)] for an int. *)
Definition str_of_Z (n : Z) : string := NilZero.string_of_int (Z.to_int n).

Fixpoint repeat_string (s : string) (n : nat) : string :=
  match n with
  | O => EmptyString
  | S k => s +:+ repeat_string s k
  end.

Definition pagespeed_api_url : string :=
  "https://www.googleapis.com/pagespeedonline/v5/runPagespeed".

Section Enricher.

(** [requests.get(url, params=..., timeout=...)]. *)
Variable requests_get : string -> list (string * string) -> Z -> result response.
(** [int(x * 100)] for a finite float [x], and [int(s)] for a string. *)
Variable int_of_float_times_100 : Q -> result Z.
Variable int_of_str : string -> result Z.

(** [int(score * 100)]. *)
Definition scaled_score (score : json) : result Z :=
  match score with
  | JInt n => ret (n * 100)
  | JBool b => ret (if b then 100 else 0)
  | JFloat q => int_of_float_times_100 q
  | JNaN => raise ValueError "cannot convert float NaN to integer"
  | JInfinity _ => raise OtherException "cannot convert float infinity to integer"
  | JStr s => int_of_str (repeat_string s 100)
  | JNull => raise TypeError "unsupported operand type(s) for *: 'NoneType' and 'int'"
  | JList _ => raise TypeError "int() argument must be a string, a bytes-like object or a real number, not 'list'"
  | JDict _ => raise TypeError "unsupported operand type(s) for *: 'dict' and 'int'"
  end.

Definition pagespeed_params (url key : string) : list (string * string) :=
  [("url", url); ("key", key); ("category", "performance")].

(** The [try] block of [get_pagespeed_insights] after its print. *)
Definition pagespeed_try (url key : string) : result pagespeed :=
  let* response := requests_get pagespeed_api_url (pagespeed_params url key) 60 in
  let* _ := raise_for_status response in
  let* data := json_body response in
  let* lighthouse_result := Json.get data "lighthouseResult" (JDict []) in
  let* categories := Json.get lighthouse_result "categories" (JDict []) in
  let* performance := Json.get categories "performance" (JDict []) in
  let* audits := Json.get lighthouse_result "audits" (JDict []) in
  let* fcp_audit := Json.get audits "first-contentful-paint" (JDict []) in
  let* score := Json.get performance "score" JNull in
  let* score100 :=
    (if Json.truthy score
     then let* s := Json.get performance "score" (JInt 0) in scaled_score s
     else ret 0) in
  let* display_value := Json.get fcp_audit "displayValue" (JStr "N/A") in
  let* numeric_value := Json.get fcp_audit "numericValue" (JInt 0) in
  ret {| performance_score := score100;
         fcp := display_value;
         fcp_numeric := numeric_value |}.

(** [get_pagespeed_insights]: the value returned and the events it
    caused.  [api_key] is None or the string stored by [get_api_key]. *)
Definition get_pagespeed_insights (api_key : option string) (url : string)
  : option pagespeed * list event :=
  match api_key with
  | None => (None, [])
  | Some key =>
      if PyStr.is_empty key then (None, [])
      else
        let started :=
          [Print "⚡ Analyzing PageSpeed Performance...";
           HttpGet pagespeed_api_url (pagespeed_params url key) 60] in
        match pagespeed_try url key with
        | inr insight => (Some insight, started)
        | inl (Exn RequestException msg) =>
            (None, started ++ [Print ("⚠️  PageSpeed API Error: " +:+ msg)])
        | inl (Exn _ msg) =>
            (None, started ++ [Print ("⚠️  PageSpeed Analysis Error: " +:+ msg)])
        end
  end.

End Enricher.

(** The PageSpeed lines of [display_results]; [py_str] is [str(_)] of a
    JSON value. *)
Definition display_pagespeed (py_str : json -> string)
    (pagespeed_data : option pagespeed) : list string :=
  match pagespeed_data with
  | Some ps =>
      ["⚡ PageSpeed Performance:";
       "   Performance Score: " +:+ str_of_Z (performance_score ps) +:+ "/100";
       "   First Contentful Paint: " +:+ py_str (fcp ps)]
  | None => ["⚡ PageSpeed Performance: Not available (API key not provided)"]
  end.

(** The cells of the PAGESPEED PERFORMANCE block of [generate_pdf_report]
    below its heading. *)
Definition pdf_pagespeed (py_str : json -> string)
    (pagespeed_data : option pagespeed) : list string :=
  match pagespeed_data with
  | Some ps =>
      ["Performance Score: " +:+ str_of_Z (performance_score ps) +:+ "/100";
       "First Contentful Paint: " +:+ py_str (fcp ps)]
  | None => ["PageSpeed data not available"; "(API key not provided)"]
  end.

(** ** PDF text wrapping *)

(** The wrapping loop of [generate_pdf_report]: the cells written for the
    words still to place, [line] being the line under construction; the
    last case is the flush after the loop. *)
Fixpoint wrap_loop (budget : Z) (words : list string) (line : string)
  : list string :=
  match words with
  | [] =>
      if PyStr.is_empty (PyStr.strip line) then []
      else ["  " +:+ PyStr.strip line]
  | word :: rest =>
      if PyStr.len (line +:+ word) <? budget
      then wrap_loop budget rest (line +:+ word +:+ " ")
      else ("  " +:+ PyStr.strip line) :: wrap_loop budget rest (word +:+ " ")
  end.

(** The cells written for a string longer than the threshold. *)
Definition wrap_text (budget : Z) (s : string) : list string :=
  wrap_loop budget (PyStr.split s) "".

(** The cells of the title block below its heading. *)
Definition pdf_title (title_tag : string) : list string :=
  (if 70 <? PyStr.len title_tag
   then "Title:" :: wrap_text 65 title_tag
   else ["Title: " +:+ title_tag])
  ++ ["Length: " +:+ str_of_Z (PyStr.len title_tag) +:+ " characters"].




(** ** The audit run *)

Definition is_delimiter (c : ascii) : bool :=
  bool_decide (c = "/"%char) || bool_decide (c = "?"%char)
  || bool_decide (c = "#"%char).

Fixpoint until_delimiter (s : string) : string :=
  match s with
  | EmptyString => EmptyString
  | String c s' =>
      if is_delimiter c then EmptyString else String c (until_delimiter s')
  end.

(** [urlparse(url).netloc] for the URLs [run_audit] lets through: they
    start with http:// or https://.  (URLs with tab, CR, LF or an
    unbalanced square bracket, which [urlparse] treats specially, do not
    reach this point with a fetched page.) *)
Definition netloc (url : string) : string :=
  if PyStr.startswith "http://" url then until_delimiter (PyStr.drop 7 url)
  else if PyStr.startswith "https://" url then until_delimiter (PyStr.drop 8 url)
  else EmptyString.

(** [domain = urlparse(url).netloc.replace('www.', '')]. *)
Definition domain_of (url : string) : string :=
  PyStr.replace (netloc url) "www." "".

(** [pdf_filename = f"SEO_Audit_Report_{domain}.pdf"]. *)
Definition pdf_filename_of (url : string) : string :=
  "SEO_Audit_Report_" +:+ domain_of url +:+ ".pdf".

Record audit_results : Type := AuditResults {
  r_url : string;
  r_keyword : string;
  r_domain : string;
  r_audit_date : string;
  r_title_tag : string;
  r_meta_description : string;
  r_keyword_frequency : keyword_frequency;
  r_h1_analysis : h1_analysis;
  r_image_analysis : image_analysis;
  r_schema_analysis : schema_analysis;
  r_pagespeed_data : option pagespeed
}.

(** How [run_audit] ends: an early return, an exception that leaves it
    (caught and reported by [run]), or the results handed to
    [display_results] with the file name handed to
    [generate_pdf_report]. *)
Inductive audit_outcome : Type :=
| InvalidUrl
| EmptyKeyword
| FetchFailed
| Raised (e : exn)
| Audited (results : audit_results) (pdf_filename : string).

(** The line feed character. *)
Definition newline : string := String (ascii_of_nat 10) EmptyString.

(** The lines [run_audit] prints itself: its header, the two rejections,
    the lines that announce the audit, and the line before the
    analyses. *)
Definition audit_header : list event :=
  [Print (newline +:+ "🔍 SEO AUDIT ANALYZER"); Print (repeat_string "-" 25)].

Definition invalid_url_line : event :=
  Print "❌ Please enter a valid URL starting with http:// or https://".

Definition empty_keyword_line : event :=
  Print "❌ Keyword cannot be empty".

Definition audit_start_lines (url keyword : string) : list event :=
  [Print (newline +:+ "🚀 Starting SEO audit for: " +:+ url);
   Print ("🎯 Target keyword: '" +:+ keyword +:+ "'");
   Print (repeat_string "-" 50)].

Definition analysing_line : event :=
  Print "📊 Analyzing SEO elements...".

Section Audit.

(** [BeautifulSoup(_, 'html.parser')]. *)
Variable parse : string -> node.
Variable json_loads : string -> result json.
(** [self.session.get(url, timeout=30)] and [requests.get]. *)
Variable session_get : string -> Z -> result response.
Variable requests_get : string -> list (string * string) -> Z -> result response.
Variable int_of_float_times_100 : Q -> result Z.
Variable int_of_str : string -> result Z.
(** [datetime.now().strftime(...)]. *)
Variable now : string.

(** [get_page_content]: both handlers return (None, None). *)
Definition get_page_content (url : string)
  : option (node * string) * list event :=
  let started :=
    [Print ("🌐 Fetching content from: " +:+ url); HttpGet url [] 30] in
  let fetched :=
    (let* response := session_get url 30 in
     let* _ := raise_for_status response in
     ret (parse (text response), text response)) in
  match fetched with
  | inr page => (Some page, started)
  | inl (Exn RequestException msg) =>
      (None, started ++ [Print ("❌ Error fetching URL: " +:+ msg)])
  | inl (Exn _ msg) =>
      (None, started ++ [Print ("❌ Unexpected error: " +:+ msg)])
  end.

(** [run_audit] from the two lines read from the console to the call of
    [display_results], with the lines it prints on the way (the prompts
    of [input] are not [print] calls and are left out). *)
Definition run_audit (api_key : option string) (url_line keyword_line : string)
  : audit_outcome * list event :=
  let url := PyStr.strip url_line in
  if negb (PyStr.startswith "http://" url || PyStr.startswith "https://" url)
  then (InvalidUrl, audit_header ++ [invalid_url_line])
  else
    let keyword := PyStr.strip keyword_line in
    if PyStr.is_empty keyword
    then (EmptyKeyword, audit_header ++ [empty_keyword_line])
    else
      let started := audit_header ++ audit_start_lines url keyword in
      match get_page_content url with
      | (None, fetch_events) => (FetchFailed, started ++ fetch_events)
      | (Some (soup, html_content), fetch_events) =>
          let domain := domain_of url in
          let analysing := started ++ fetch_events ++ [analysing_line] in
          match check_schema_markup json_loads soup with
          | inl e => (Raised e, analysing)
          | inr schema =>
              let '(insight, api_events) :=
                get_pagespeed_insights requests_get int_of_float_times_100
                  int_of_str api_key url in
              (Audited
                 {| r_url := url;
                    r_keyword := keyword;
                    r_domain := domain;
                    r_audit_date := now;
                    r_title_tag := extract_title_tag soup;
                    r_meta_description := extract_meta_description soup;
                    r_keyword_frequency :=
                      calculate_keyword_frequency parse html_content keyword;
                    r_h1_analysis := analyze_h1_tags soup;
                    r_image_analysis := analyze_images soup url;
                    r_schema_analysis := schema;
                    r_pagespeed_data := insight |}
                 ("SEO_Audit_Report_" +:+ domain +:+ ".pdf"),
               analysing ++ api_events)
          end
      end.

End Audit.

(** ** Notions used to state the properties *)





(** The number of elements below [n] that [f] selects, counted directly
    on the tree. *)
Fixpoint count_elements (f : tag_filter) (n : node) : nat :=
  match n with
  | Tag _ _ cs =>
      (fix go (l : list node) : nat :=
         match l with
         | [] => O
         | c :: l' =>
             ((if selects f c then 1 else 0) + count_elements f c + go l')%nat
         end) cs
  | _ => O
  end.

(** An image has alt text: the attribute is there and is not empty once
    trimmed. *)
Definition has_alt (img : node) : bool :=
  match get img "alt" with
  | Some v => negb (PyStr.is_empty (PyStr.strip v))
  | None => false
  end.

(** A JSON value of the expected shape: an object with an [@type] key, or
    an array that holds such an object. *)
Definition typed_object (v : json) : bool :=
  match v with
  | JDict d => bool_decide (is_Some (Json.lookup "@type" d))
  | _ => false
  end.

Definition expected_shape (v : json) : bool :=
  match v with
  | JDict _ => typed_object v
  | JList items => existsb typed_object items
  | _ => false
  end.

(** A JSON-LD block that is malformed: its body is not one string, does
    not parse as JSON, or parses to a value without the expected shape. *)
Definition malformed (json_loads : string -> result json) (script : node)
  : bool :=
  match loads_script json_loads script with
  | inl (Exn JSONDecodeError _) => true
  | inl (Exn TypeError _) => true
  | inl _ => false
  | inr data => negb (expected_shape data)
  end.

Definition json_ld_filter : tag_filter :=
  by_name_attr "script" "type" "application/ld+json".

Definition meta_description_filter : tag_filter :=
  by_name_attr "meta" "name" "description".

Definition well_formed (json_loads : string -> result json) (script : node)
  : bool :=
  negb (malformed json_loads script).

(** The text of a wrapped cell made of the words of [group]. *)
Definition cell_of (group : list string) : string :=
  "  " +:+ PyStr.join " " group.

(** The host with a leading [www.] taken off, as the specification
    describes the report name. *)
Definition strip_leading_www (host : string) : string :=
  if PyStr.startswith "www." host then PyStr.drop 4 host else host.


(** Was an outbound request made to the performance endpoint? *)
Definition calls_performance_api (e : event) : bool :=
  match e with
  | HttpGet url _ _ => bool_decide (url = pagespeed_api_url)
  | Print _ => false
  end.


(** A node followed by everything below it. *)
Definition subtree (c : node) : list node := c :: descendants c.

(** A word as [split] yields them: not empty, no whitespace in it. *)
Fixpoint no_space (s : string) : bool :=
  match s with
  | EmptyString => true
  | String c s' => negb (PyStr.isspace c) && no_space s'
  end.

Definition is_word (w : string) : bool :=
  negb (PyStr.is_empty w) && no_space w.

(** The line under construction once the words of [group] were added to
    an empty line: each word followed by one space. *)
Definition line_of (group : list string) : string :=
  String.concat EmptyString (map (fun w => w +:+ " ") group).

(** The wrapping loop read on groups of words: [group] holds the words of
    the line under construction; the result lists the group of each cell
    written. *)
Fixpoint wrap_groups (budget : Z) (words group : list string)
  : list (list string) :=
  match words with
  | [] => match group with [] => [] | _ => [group] end
  | word :: rest =>
      if PyStr.len (line_of group +:+ word) <? budget
      then wrap_groups budget rest (group ++ [word])
      else group :: wrap_groups budget rest [word]
  end.

(** A line that fits: shorter than the budget, or one word alone. *)
Definition fits (budget : Z) (group : list string) : Prop :=
  PyStr.len (PyStr.join " " group) < budget \/ exists w, group = [w].

(** ** Sample documents and environments *)

Module Samples.

Definition elem (name : string) (cs : list node) : node := Tag name ∅ cs.

(** <html><head><title>Buy Shoes Online</title></head><body>
    <h1>Shop Shoes</h1><p>Shoes and more shoes.</p></body></html> *)
Definition shoes_page : node :=
  document
    [elem "html"
       [elem "head" [elem "title" [NavigableString "Buy Shoes Online"]];
        elem "body"
          [elem "h1" [NavigableString "Shop Shoes"];
           elem "p" [NavigableString "Shoes and more shoes."]]]].




(** <p>aaaa</p> *)
Definition aaaa_page : node :=
  document [elem "p" [NavigableString "aaaa"]].

(** <img src="a.png" alt="A"><img src="b.png" alt="  "><img src="c.png"> *)
Definition images_page : node :=
  document
    [Tag "img" {[ "src" := "a.png"; "alt" := "A" ]} [];
     Tag "img" {[ "src" := "b.png"; "alt" := "  " ]} [];
     Tag "img" {[ "src" := "c.png" ]} []].

(** <head><meta name="description" content=" Shoes for all "></head> *)
Definition described_page : node :=
  document
    [elem "head"
       [Tag "meta" {[ "name" := "description"; "content" := " Shoes for all " ]} []]].

(** <head><meta name="description" content=""></head> *)
Definition empty_description_page : node :=
  document
    [elem "head" [Tag "meta" {[ "name" := "description"; "content" := "" ]} []]].

(** <head><meta name="description"></head> *)
Definition no_content_page : node :=
  document [elem "head" [Tag "meta" {[ "name" := "description" ]} []]].

(** <head></head> *)
Definition undescribed_page : node := document [elem "head" []].

(** The double quote character. *)
Definition dq : string := String (ascii_of_nat 34) EmptyString.

(** The payload {"@type": "Article"}. *)
Definition article_payload : string :=
  "{" +:+ dq +:+ "@type" +:+ dq +:+ ": " +:+ dq +:+ "Article" +:+ dq +:+ "}".

Definition ld_script (payload : string) : node :=
  Tag "script" {[ "type" := "application/ld+json" ]} [NavigableString payload].

(** Two JSON-LD blocks, the first one not JSON. *)
Definition json_ld_page : node :=
  document [ld_script "{oops"; ld_script article_payload].

(** One JSON-LD block, not JSON. *)
Definition broken_json_ld_page : node := document [ld_script "{oops"].

(** [json.loads] on the two payloads above. *)
Definition loads (s : string) : result json :=
  if bool_decide (s = article_payload)
  then ret (JDict [("@type", JStr "Article")])
  else raise JSONDecodeError "Expecting property name enclosed in double quotes".

(** A parser that answers [d]. *)
Definition parser_of (d : node) : string -> node := fun _ => d.


(** A performance endpoint that answers 403. *)
Definition forbidden_api (_ : string) (_ : list (string * string)) (_ : Z)
  : result response :=
  ret {| status_code := 403; http_error := "403 Client Error";
         text := ""; json_body := raise RequestException "Expecting value" |}.

(** A site that serves the shoes page. *)
Definition shoes_site (_ : string) (_ : Z) : result response :=
  ret {| status_code := 200; http_error := ""; text := "<html>...</html>";
         json_body := raise RequestException "Expecting value" |}.


(** A performance endpoint that cannot be reached. *)
Definition unreachable_api (_ : string) (_ : list (string * string)) (_ : Z)
  : result response :=
  raise RequestException "Connection refused".

Definition no_float (_ : Q) : result Z := ret 0.
Definition no_int (_ : string) : result Z := raise ValueError "invalid literal".

(** A title of one word of 71 characters. *)
Definition long_word : string := repeat_string "a" 71.

Definition long_title : string :=
  "An introduction to search engine optimisation for small online shops and stores".

End Samples.

(** ** The session, the console report and the PDF cells *)

(** [get_api_key]: the credential held afterwards and the lines printed,
    [line] being what the user typed at the prompt. *)
Definition get_api_key (api_key : option string) (line : string)
  : option string * list event :=
  let intro :=
    [Print (newline +:+ "🔑 Google PageSpeed Insights API Key Setup");
     Print (repeat_string "-" 45);
     Print "To get your API key:";
     Print "1. Visit: https://developers.google.com/speed/docs/insights/v5/get-started";
     Print "2. Create a project and enable PageSpeed Insights API";
     Print "3. Generate an API key";
     Print EmptyString] in
  let entered := PyStr.strip line in
  if PyStr.is_empty entered
  then (api_key, intro ++ [Print "⚠️  No API Key provided. PageSpeed analysis will be skipped."])
  else (Some entered, intro ++ [Print "✅ API Key saved successfully!"]).

(** The credential held after a series of visits to option 1. *)
Definition enter_keys (api_key : option string) (lines : list string)
  : option string :=
  fold_left (fun key line => fst (get_api_key key line)) lines api_key.



(** [h1_text[:60]] followed by three dots when something was cut. *)
Definition h1_preview (h1_text : string) : string :=
  PyStr.take 60 h1_text
  +:+ (if 60 <? PyStr.len h1_text then "..." else EmptyString).

(** The H1 lines of [display_results], numbered from [i]. *)
Fixpoint display_h1_texts (i : Z) (h1_texts : list string) : list string :=
  match h1_texts with
  | [] => []
  | h1_text :: rest =>
      ("   H1 " +:+ str_of_Z i +:+ ": " +:+ h1_preview h1_text)
      :: display_h1_texts (i + 1) rest
  end.

Definition yes_no (b : bool) : string := if b then "Yes" else "No".



(** [url_parts]: the URL with every "https://" and then every "http://"
    taken out. *)
Definition url_parts (url : string) : string :=
  PyStr.replace (PyStr.replace url "https://" EmptyString) "http://" EmptyString.

(** The cells of the website line of the PDF. *)
Definition pdf_website (url : string) : list string :=
  let parts := url_parts url in
  if 50 <? PyStr.len parts
  then ["Website:"; "  " +:+ PyStr.take 50 parts; "  " +:+ PyStr.drop 50 parts]
  else ["Website: " +:+ parts].

(** The cells of the schema block of the PDF below its heading; at most
    five types are listed. *)
Definition pdf_schema (py_str : json -> string) (schema : schema_analysis)
  : list string :=
  ("Schema Present: " +:+ yes_no (has_schema schema))
  :: (if has_schema schema then
        ["JSON-LD Scripts: " +:+ str_of_Z (json_ld_count schema);
         "Microdata: " +:+ str_of_Z (microdata_count schema)]
        ++ match schema_types schema with
           | [] => []
           | types =>
               "Schema Types:"
               :: map (fun schema_type => "  - " +:+ py_str schema_type)
                    (firstn 5 types)
           end
      else []).





(** [get_page_content] with a parser that may reject the markup:
    [BeautifulSoup(...)] then raises inside the [try] (bs4 raises
    ParserRejectedMarkup) and the second handler returns (None, None).
    [get_page_content] above is the case of a parser that accepts every
    body. *)
Definition get_page_content_parsing
    (parse : string -> result node)
    (session_get : string -> Z -> result response) (url : string)
  : option (node * string) * list event :=
  let started :=
    [Print ("🌐 Fetching content from: " +:+ url); HttpGet url [] 30] in
  let fetched :=
    (let* response := session_get url 30 in
     let* _ := raise_for_status response in
     let* soup := parse (text response) in
     ret (soup, text response)) in
  match fetched with
  | inr page => (Some page, started)
  | inl (Exn RequestException msg) =>
      (None, started ++ [Print ("❌ Error fetching URL: " +:+ msg)])
  | inl (Exn _ msg) =>
      (None, started ++ [Print ("❌ Unexpected error: " +:+ msg)])
  end.

(** The class of the exception a computation raised, if it raised. *)
Definition exn_cls_of {A : Type} (r : result A) : option exn_class :=
  match r with
  | inl e => Some (exn_cls e)
  | inr _ => None
  end.

(** An outbound request. *)
Definition is_request (e : event) : bool :=
  match e with
  | HttpGet _ _ _ => true
  | Print _ => false
  end.

Definition requests_of (events : list event) : list event :=
  List.filter is_request events.

(** [d.get(k, default)] once the key was looked up. *)
Definition or_default (found : option json) (default : json) : json :=
  match found with
  | Some v => v
  | None => default
  end.

(** Lower-casing the text of the document lower-cases the part that
    belongs to the element [inner] in the same way.  Lower-casing goes
    character by character on the code points modelled here; Python's
    [lower] does not on all text (a Greek capital sigma is lower-cased
    according to what follows it). *)
Definition lowers_alike (soup inner : node) : Prop :=
  exists a b,
    PyStr.lower (get_text soup) = a +:+ PyStr.lower (get_text inner) +:+ b.

(** A string without whitespace at either end. *)
Definition trimmed (s : string) : Prop := PyStr.strip s = s.

(** Does the character [c] occur in [s]? *)
Fixpoint occurs (c : ascii) (s : string) : bool :=
  match s with
  | EmptyString => false
  | String x s' => bool_decide (x = c) || occurs c s'
  end.

(** No two entries are equal as Python compares them. *)
Definition distinct_types (l : list json) : Prop :=
  ForallOrdPairs (fun a b => Json.eqb a b = false) l.

Module MoreSamples.

(** <h1>seo <h2>seo</h2></h1> *)
Definition nested_headings_page : node :=
  document
    [Samples.elem "h1"
       [NavigableString "seo "; Samples.elem "h2" [NavigableString "seo"]]].

(** <title> Shoes </title><h1> Boots </h1> *)
Definition padded_page : node :=
  document
    [Samples.elem "title" [NavigableString " Shoes "];
     Samples.elem "h1" [NavigableString " Boots "]].

(** The payload {"@type": ["Article", "NewsArticle"]}. *)
Definition list_type_payload : string :=
  "{" +:+ Samples.dq +:+ "@type" +:+ Samples.dq +:+ ": ["
  +:+ Samples.dq +:+ "Article" +:+ Samples.dq +:+ ", "
  +:+ Samples.dq +:+ "NewsArticle" +:+ Samples.dq +:+ "]}".

(** The payload [{"@type": "Article"}, {"@type": "Article"}]. *)
Definition repeated_payload : string :=
  "[" +:+ Samples.article_payload +:+ ", " +:+ Samples.article_payload +:+ "]".

(** [json.loads] on the payloads above. *)
Definition loads (s : string) : result json :=
  if bool_decide (s = list_type_payload)
  then ret (JDict [("@type", JList [JStr "Article"; JStr "NewsArticle"])])
  else if bool_decide (s = repeated_payload)
  then ret (JList [JDict [("@type", JStr "Article")];
                   JDict [("@type", JStr "Article")]])
  else Samples.loads s.

Definition list_type_page : node :=
  document [Samples.ld_script list_type_payload].

Definition repeated_type_page : node :=
  document [Samples.ld_script repeated_payload;
            Samples.ld_script Samples.article_payload].

(** A performance endpoint that answers 200 with
    {"lighthouseResult": {"categories": {"performance": {"score": null}},
     "audits": {"first-contentful-paint": {"displayValue": "1.2 s",
     "numericValue": 1200}}}}. *)
Definition null_score_api (_ : string) (_ : list (string * string)) (_ : Z)
  : result response :=
  ret {| status_code := 200; http_error := EmptyString; text := EmptyString;
         json_body :=
           ret (JDict
                  [("lighthouseResult",
                    JDict
                      [("categories",
                        JDict [("performance", JDict [("score", JNull)])]);
                       ("audits",
                        JDict
                          [("first-contentful-paint",
                            JDict [("displayValue", JStr "1.2 s");
                                   ("numericValue", JInt 1200)])])])]) |}.

(** A JSON-LD body of 2000 opening brackets: not JSON, and nested deeper
    than the interpreter's recursion limit allows the parser to go. *)
Definition deep_payload : string := repeat_string "[" 2000.

(** [json.loads] on that body raises RecursionError. *)
Definition deep_loads (s : string) : result json :=
  if bool_decide (s = deep_payload)
  then raise RecursionError
         "maximum recursion depth exceeded while decoding a JSON array from a unicode string"
  else Samples.loads s.

Definition deep_page : node := document [Samples.ld_script deep_payload].

(** <meta name="description" content="   "> *)
Definition blank_description_page : node :=
  document
    [Tag "meta" {[ "name" := "description"; "content" := "   " ]} []].

(** <img src="a.png" alt="   "> *)
Definition blank_alt_page : node :=
  document [Tag "img" {[ "src" := "a.png"; "alt" := "   " ]} []].

(** A parser that rejects every body. *)
Definition rejecting_parser (_ : string) : result node :=
  raise OtherException "The markup you provided was rejected by the parser.".



End MoreSamples.

(** * Properties *)

(** ** Facts about the string primitives *)

Lemma is_empty_spec (s : string) : PyStr.is_empty s = true <-> s = EmptyString.
Proof. destruct s; simpl; split; congruence. Qed.

Lemma is_empty_false (s : string) : PyStr.is_empty s = false <-> s <> EmptyString.
Proof. destruct s; simpl; split; congruence. Qed.

Lemma startswith_length (p s : string) :
  PyStr.startswith p s = true -> (String.length p <= String.length s)%nat.
Proof.
  revert s; induction p as [|a p IH]; intros s H; simpl in *.
  - lia.
  - destruct s as [|b s]; [discriminate|].
    destruct (Ascii.eqb a b); [|discriminate].
    apply IH in H. simpl. lia.
Qed.

Lemma count_from_drop (sub s : string) (k : nat) :
  PyStr.count_from sub s k = PyStr.count_from sub (PyStr.drop k s) 0.
Proof.
  revert k; induction s as [|c s IH]; intros [|k]; try reflexivity.
  simpl PyStr.drop. rewrite <- IH. reflexivity.
Qed.

Lemma count_from_bound (sub s : string) (k : nat) :
  sub <> EmptyString ->
  (PyStr.count_from sub s k * String.length sub <= String.length s - k)%nat.
Proof.
  intros Hsub.
  assert (HL : (1 <= String.length sub)%nat)
    by (destruct sub; [congruence | simpl; lia]).
  revert k; induction s as [|c s IH]; intros k.
  - simpl. lia.
  - destruct k as [|k].
    + cbn [PyStr.count_from].
      destruct (PyStr.startswith sub (String c s)) eqn:E.
      * apply startswith_length in E. simpl in E.
        specialize (IH (String.length sub - 1)%nat).
        cbn [String.length]. lia.
      * specialize (IH O). cbn [String.length]. lia.
    + cbn [PyStr.count_from String.length]. specialize (IH k). lia.
Qed.

Lemma count_nonneg (s sub : string) : 0 <= Z.of_nat (PyStr.count s sub).
Proof. lia. Qed.

(** ** Keyword frequency *)

(** C1.  The record returned by the keyword-frequency counter has four
    non-negative fields, its body field is max(0, total - title -
    headings), and it is the all-zero record when the HTML text or the
    keyword is empty. *)
Theorem keyword_frequency_fields
    (parse : string -> node) (html_content keyword : string) :
  let r := calculate_keyword_frequency parse html_content keyword in
  0 <= total r /\ 0 <= title r /\ 0 <= headings r /\ 0 <= body r
  /\ body r = Z.max 0 (total r - title r - headings r)
  /\ (html_content = EmptyString \/ keyword = EmptyString ->
      r = {| total := 0; title := 0; headings := 0; body := 0 |}).
Proof.
  intros r. subst r. unfold calculate_keyword_frequency.
  destruct (PyStr.is_empty html_content) eqn:Eh;
    [|destruct (PyStr.is_empty keyword) eqn:Ek]; simpl.
  - repeat split; try lia.
  - repeat split; try lia.
  - apply is_empty_false in Eh, Ek.
    unfold keyword_frequency_of; cbn [total title headings body].
    repeat split; try lia.
    + destruct (find _ _); lia.
    + intros [H|H]; contradiction.
Qed.

Lemma keyword_frequency_fields_witness :
  let r := calculate_keyword_frequency
             (Samples.parser_of Samples.shoes_page) "<html>...</html>" "shoes" in
  0 <= total r /\ 0 <= title r /\ 0 <= headings r /\ 0 <= body r
  /\ body r = Z.max 0 (total r - title r - headings r)
  /\ ("<html>...</html>" = EmptyString \/ "shoes" = EmptyString ->
      r = {| total := 0; title := 0; headings := 0; body := 0 |}).
Proof.
  exact (keyword_frequency_fields
           (Samples.parser_of Samples.shoes_page) "<html>...</html>" "shoes").
Defined.

(** C10.  Occurrences are counted without overlap, scanning left to
    right: a match at the front of the text is counted once and the scan
    resumes after it, otherwise the scan moves one character on.  The
    matches therefore fit side by side in the text, and "aa" is counted
    twice in "aaaa". *)
Theorem count_non_overlapping (text keyword : string) :
  keyword <> EmptyString ->
  PyStr.count text keyword =
    match text with
    | EmptyString => O
    | String _ rest =>
        if PyStr.startswith keyword text
        then S (PyStr.count (PyStr.drop (String.length keyword) text) keyword)
        else PyStr.count rest keyword
    end
  /\ (PyStr.count text keyword * String.length keyword <= String.length text)%nat
  /\ PyStr.count "aaaa" "aa" = 2%nat
  /\ total (keyword_frequency_of Samples.aaaa_page "aa") = 2.
Proof.
  intros Hk. apply is_empty_false in Hk as He.
  unfold PyStr.count. rewrite He.
  split; [|split; [|split; reflexivity]].
  - destruct text as [|c rest]; [reflexivity|].
    cbn [PyStr.count_from].
    destruct (PyStr.startswith keyword (String c rest)); [|reflexivity].
    rewrite count_from_drop. f_equal. f_equal.
    destruct keyword as [|a keyword]; [congruence|].
    cbn [String.length PyStr.drop]. f_equal. lia.
  - pose proof (count_from_bound keyword text 0 Hk). lia.
Qed.

Lemma count_non_overlapping_witness :
  PyStr.count "banana" "ana" =
    (if PyStr.startswith "ana" "banana"
     then S (PyStr.count (PyStr.drop (String.length "ana") "banana") "ana")
     else PyStr.count "anana" "ana")
  /\ (PyStr.count "banana" "ana" * String.length "ana" <= String.length "banana")%nat
  /\ PyStr.count "aaaa" "aa" = 2%nat
  /\ total (keyword_frequency_of Samples.aaaa_page "aa") = 2.
Proof.
  apply (count_non_overlapping "banana" "ana"). discriminate.
Defined.

(** ** Facts about the parse tree *)

Lemma node_ind_forall (P : node -> Prop) :
  (forall s, P (NavigableString s)) ->
  (forall s, P (Comment s)) ->
  (forall name attrs cs, Forall P cs -> P (Tag name attrs cs)) ->
  forall n, P n.
Proof.
  intros Hs Hc Ht. fix IH 1. intros [s|s|name attrs cs].
  - apply Hs.
  - apply Hc.
  - apply Ht. revert cs. fix IHcs 1. intros [|c cs].
    + constructor.
    + constructor; [apply IH | apply IHcs].
Qed.

Lemma descendants_tag (name : string) (attrs : gmap string string)
    (cs : list node) :
  descendants (Tag name attrs cs) = flat_map subtree cs.
Proof.
  simpl. induction cs as [|c cs IH]; [reflexivity|].
  simpl. rewrite IH. reflexivity.
Qed.


Lemma selects_decompose_all (f g : tag_filter) (n : node) :
  selects g (decompose_all f n) = selects g n.
Proof. destruct n; reflexivity. Qed.

Lemma append_cons (x : ascii) (a b : string) :
  String x a +:+ b = String x (a +:+ b).
Proof. reflexivity. Qed.

Lemma append_assoc (a b c : string) : (a +:+ b) +:+ c = a +:+ (b +:+ c).
Proof.
  induction a as [|x a IH]; [reflexivity|].
  rewrite !append_cons, IH. reflexivity.
Qed.

Lemma append_empty_r (a : string) : a +:+ EmptyString = a.
Proof.
  induction a as [|x a IH]; [reflexivity|].
  rewrite append_cons, IH. reflexivity.
Qed.

Lemma concat_empty_cons (x : string) (l : list string) :
  String.concat EmptyString (x :: l) = x +:+ String.concat EmptyString l.
Proof.
  destruct l as [|y l]; simpl; [|reflexivity].
  symmetry. apply append_empty_r.
Qed.

Lemma append_length (a b : string) :
  String.length (a +:+ b) = (String.length a + String.length b)%nat.
Proof.
  induction a as [|x a IH]; [reflexivity|].
  rewrite append_cons. cbn [String.length]. rewrite IH. reflexivity.
Qed.

Lemma concat_empty_app (l1 l2 : list string) :
  String.concat EmptyString (l1 ++ l2)
  = String.concat EmptyString l1 +:+ String.concat EmptyString l2.
Proof.
  induction l1 as [|x l1 IH]; [reflexivity|].
  rewrite <- app_comm_cons, !concat_empty_cons, IH, append_assoc. reflexivity.
Qed.











(** ** Headings *)

Lemma filter_subtree_length (f : tag_filter) (c : node) :
  length (List.filter (selects f) (subtree c))
  = ((if selects f c then 1 else 0) + length (find_all f c))%nat.
Proof.
  unfold subtree, find_all. cbn [List.filter].
  destruct (selects f c); reflexivity.
Qed.

(** [find_all] returns as many tags as the tree holds. *)
Lemma find_all_length (f : tag_filter) (n : node) :
  length (find_all f n) = count_elements f n.
Proof.
  induction n as [s|s|tag attrs cs IH] using node_ind_forall;
    try reflexivity.
  unfold find_all. rewrite descendants_tag. cbn [count_elements].
  induction IH as [|c cs Hc _ IHcs]; [reflexivity|].
  cbn [flat_map]. rewrite List.filter_app, length_app, filter_subtree_length.
  rewrite Hc, IHcs. lia.
Qed.

(** C3.  The H1 analyzer's count is the number of h1 elements of the
    document, and its status is Missing exactly when the count is 0, Good
    exactly when it is 1, and the warning exactly when it is above 1. *)
Theorem h1_count_and_status (soup : node) :
  let r := analyze_h1_tags soup in
  count r = Z.of_nat (count_elements (by_name "h1") soup)
  /\ (status r = status_missing <-> count r = 0)
  /\ (status r = status_good <-> count r = 1)
  /\ (status r = status_warning <-> 1 < count r).
Proof.
  intros r. subst r. unfold analyze_h1_tags. cbn [count status].
  rewrite find_all_length.
  set (n := Z.of_nat (count_elements (by_name "h1") soup)).
  assert (Hn : 0 <= n) by (subst n; lia).
  split; [reflexivity|].
  destruct (n =? 1) eqn:E1; [|destruct (1 <? n) eqn:E2];
    repeat split; intros H; try discriminate H; try lia;
    reflexivity.
Qed.

(** ** Images *)

Lemma missing_alt_test (img : node) :
  PyStr.is_empty (PyStr.strip (get_default img "alt" EmptyString))
  = negb (has_alt img).
Proof.
  unfold get_default, has_alt. destruct (get img "alt") as [v|].
  - rewrite negb_involutive. reflexivity.
  - reflexivity.
Qed.

Lemma count_missing_alt_spec (images : list node) (missing : Z) :
  count_missing_alt images missing
  = missing
    + Z.of_nat (length (List.filter (fun i => negb (has_alt i)) images)).
Proof.
  revert missing; induction images as [|img rest IH]; intros missing.
  - simpl. lia.
  - cbn [count_missing_alt List.filter].
    rewrite missing_alt_test. destruct (negb (has_alt img)).
    + rewrite IH. cbn [length]. lia.
    + apply IH.
Qed.

Lemma filter_partition_length {A : Type} (p : A -> bool) (l : list A) :
  (length (List.filter p l) + length (List.filter (fun x => negb (p x)) l)
   = length l)%nat.
Proof.
  induction l as [|x l IH]; [reflexivity|].
  cbn [List.filter]. destruct (p x); cbn [negb length]; lia.
Qed.

(** C4.  In the image analysis, with_alt + missing_alt = total, the three
    fields are non-negative, the total is the number of img elements, and
    the images counted as having alt text are those whose alt attribute
    is present and non-empty once trimmed (an image without the attribute
    is read as having the empty string and counts as missing). *)
Theorem image_counts (soup : node) (base_url : string) :
  let r := analyze_images soup base_url in
  let images := find_all (by_name "img") soup in
  with_alt r + missing_alt r = total_images r
  /\ 0 <= total_images r /\ 0 <= with_alt r /\ 0 <= missing_alt r
  /\ total_images r = Z.of_nat (count_elements (by_name "img") soup)
  /\ with_alt r = Z.of_nat (length (List.filter has_alt images))
  /\ missing_alt r
     = Z.of_nat (length (List.filter (fun i => negb (has_alt i)) images))
  /\ (forall img, get img "alt" = None ->
        get_default img "alt" EmptyString = EmptyString
        /\ has_alt img = false).
Proof.
  intros r images. subst r. unfold analyze_images.
  cbn [with_alt missing_alt total_images]. fold images.
  rewrite count_missing_alt_spec.
  pose proof (filter_partition_length has_alt images) as Hp.
  rewrite <- (find_all_length (by_name "img") soup). fold images.
  repeat split; try lia.
  - unfold get_default. rewrite H. reflexivity.
  - unfold has_alt. rewrite H. reflexivity.
Qed.

Lemma image_counts_witness :
  let r := analyze_images Samples.images_page "https://example.com/" in
  let images := find_all (by_name "img") Samples.images_page in
  with_alt r + missing_alt r = total_images r
  /\ 0 <= total_images r /\ 0 <= with_alt r /\ 0 <= missing_alt r
  /\ total_images r = Z.of_nat (count_elements (by_name "img") Samples.images_page)
  /\ with_alt r = Z.of_nat (length (List.filter has_alt images))
  /\ missing_alt r
     = Z.of_nat (length (List.filter (fun i => negb (has_alt i)) images))
  /\ (forall img, get img "alt" = None ->
        get_default img "alt" EmptyString = EmptyString
        /\ has_alt img = false).
Proof.
  exact (image_counts Samples.images_page "https://example.com/").
Defined.

(** ** Meta description *)

Lemma strip_empty : PyStr.strip EmptyString = EmptyString.
Proof. reflexivity. Qed.

(** The meta description on the cases the code treats as its
    specification says: the first meta element named description whose
    content is there and is not empty once trimmed gives the trimmed
    content; no such element, or a content that is missing or the empty
    string, gives the sentinel. *)
Theorem meta_description_extraction (soup : node) :
  (forall m rest content,
      find_all meta_description_filter soup = m :: rest ->
      get m "content" = Some content ->
      PyStr.strip content <> EmptyString ->
      extract_meta_description soup = PyStr.strip content)
  /\ (find_all meta_description_filter soup = [] ->
      extract_meta_description soup = "No meta description found")
  /\ (forall m rest,
        find_all meta_description_filter soup = m :: rest ->
        get m "content" = Some EmptyString \/ get m "content" = None ->
        extract_meta_description soup = "No meta description found")
  /\ (forall m rest absent,
        find_all meta_description_filter soup = m :: rest ->
        get m "content" = Some EmptyString ->
        find_all meta_description_filter absent = [] ->
        extract_meta_description soup = extract_meta_description absent).
Proof.
  unfold extract_meta_description, find, meta_description_filter.
  repeat split.
  - intros m rest content Hf Hc Hs. rewrite Hf. cbn [head]. rewrite Hc.
    destruct content; [contradiction | reflexivity].
  - intros Hf. rewrite Hf. reflexivity.
  - intros m rest Hf [Hc|Hc]; rewrite Hf; cbn [head]; rewrite Hc; reflexivity.
  - intros m rest absent Hf Hc Ha. rewrite Hf, Ha. cbn [head]. rewrite Hc.
    reflexivity.
Qed.

Lemma meta_description_extraction_witness :
  extract_meta_description Samples.described_page = "Shoes for all"
  /\ extract_meta_description Samples.empty_description_page
     = "No meta description found"
  /\ extract_meta_description Samples.empty_description_page
     = extract_meta_description Samples.undescribed_page.
Proof.
  split; [|split].
  - destruct (meta_description_extraction Samples.described_page) as [H _].
    eapply H with (rest := []) (content := " Shoes for all ");
      [reflexivity | reflexivity | discriminate].
  - destruct (meta_description_extraction Samples.empty_description_page)
      as (_ & _ & H & _).
    eapply H with (rest := []); [reflexivity | left; reflexivity].
  - destruct (meta_description_extraction Samples.empty_description_page)
      as (_ & _ & _ & H).
    eapply H with (rest := []); reflexivity.
Defined.

(** A content made of whitespace only passes the test on the untrimmed
    value, and the extractor returns the empty string. *)
Remark blank_content_gives_empty_string :
  extract_meta_description
    (document [Tag "meta" {[ "name" := "description"; "content" := "   " ]} []])
  = EmptyString.
Proof. reflexivity. Qed.

(** ** Structured data *)

Lemma type_of_item_untyped (item : json) :
  typed_object item = false -> type_of_item item = [].
Proof.
  destruct item; try reflexivity. cbn [typed_object type_of_item].
  destruct (Json.lookup "@type" bindings) as [t|]; [|reflexivity].
  intros H. apply bool_decide_eq_false in H. exfalso. apply H. eexists; reflexivity.
Qed.

Lemma types_of_data_shapeless (data : json) :
  expected_shape data = false -> types_of_data data = [].
Proof.
  destruct data; try reflexivity; cbn [expected_shape types_of_data].
  - induction items as [|item items IH]; [reflexivity|].
    cbn [existsb flat_map]. intros H. apply orb_false_iff in H as [H1 H2].
    rewrite (type_of_item_untyped item H1), (IH H2). reflexivity.
  - apply type_of_item_untyped.
Qed.

(** A malformed block is passed over: the scan goes on with the types
    collected so far. *)
Lemma collect_types_skip (json_loads : string -> result json)
    (script : node) (rest : list node) (acc : list json) :
  malformed json_loads script = true ->
  collect_types json_loads (script :: rest) acc
  = collect_types json_loads rest acc.
Proof.
  unfold malformed. cbn [collect_types].
  destruct (loads_script json_loads script) as [[cls msg]|data].
  - destruct cls; intros H; try discriminate H; reflexivity.
  - intros H. apply negb_true_iff in H.
    rewrite (types_of_data_shapeless data H), app_nil_r. reflexivity.
Qed.

Lemma collect_types_keep (json_loads : string -> result json)
    (script : node) (rest rest' : list node) :
  (forall acc, collect_types json_loads rest acc
               = collect_types json_loads rest' acc) ->
  forall acc, collect_types json_loads (script :: rest) acc
              = collect_types json_loads (script :: rest') acc.
Proof.
  intros H acc. cbn [collect_types].
  destruct (loads_script json_loads script) as [[cls msg]|data];
    [destruct cls|]; try reflexivity; apply H.
Qed.

Lemma collect_types_well_formed (json_loads : string -> result json)
    (scripts : list node) (acc : list json) :
  collect_types json_loads scripts acc
  = collect_types json_loads
      (List.filter (well_formed json_loads) scripts) acc.
Proof.
  revert acc; induction scripts as [|script rest IH]; intros acc;
    [reflexivity|].
  cbn [List.filter]. unfold well_formed at 1.
  destruct (malformed json_loads script) eqn:E; cbn [negb].
  - rewrite (collect_types_skip _ _ _ _ E). apply IH.
  - apply collect_types_keep. exact IH.
Qed.

(** X19.  A JSON-LD block is passed over without an error, and adds
    nothing to the types, when its body is not one string, when
    [json.loads] rejects it with JSONDecodeError (or TypeError), or when
    its value lacks the expected shape: the types collected, and any
    exception, are those of the remaining blocks alone.  Such a block is
    still counted: whenever the check returns, json_ld_count is the
    number of ld+json script elements of the document, and a document
    whose blocks are all of this kind gets that count with no types. *)
Theorem malformed_json_ld_skipped_but_counted
    (json_loads : string -> result json) (soup : node) :
  let json_ld := find_all json_ld_filter soup in
  let kept := List.filter (well_formed json_loads) json_ld in
  (forall script rest acc,
      malformed json_loads script = true ->
      collect_types json_loads (script :: rest) acc
      = collect_types json_loads rest acc)
  /\ collect_types json_loads json_ld [] = collect_types json_loads kept []
  /\ (forall e,
        check_schema_markup json_loads soup = inl e ->
        collect_types json_loads kept [] = inl e
        \/ exists types, collect_types json_loads kept [] = inr types
                         /\ Json.list_set types = inl e)
  /\ (forall r,
        check_schema_markup json_loads soup = inr r ->
        json_ld_count r = Z.of_nat (count_elements json_ld_filter soup)
        /\ exists types, collect_types json_loads kept [] = inr types
                         /\ Json.list_set types = inr (schema_types r))
  /\ (kept = [] ->
      exists r, check_schema_markup json_loads soup = inr r
                /\ schema_types r = []
                /\ json_ld_count r
                   = Z.of_nat (count_elements json_ld_filter soup)).
Proof.
  intros json_ld kept.
  assert (Hkept : collect_types json_loads json_ld []
                  = collect_types json_loads kept [])
    by apply collect_types_well_formed.
  split; [intros; apply collect_types_skip; assumption|].
  split; [exact Hkept|].
  unfold check_schema_markup. fold json_ld_filter. fold json_ld.
  rewrite Hkept, <- (find_all_length json_ld_filter soup). fold json_ld.
  split; [|split].
  - intros e. destruct (collect_types json_loads kept []) as [e'|types];
      cbn [bind].
    + intros H. left. injection H as ->. reflexivity.
    + destruct (Json.list_set types) as [e'|l] eqn:El; cbn [bind ret].
      * intros H. right. exists types. injection H as <-.
        split; [reflexivity | exact El].
      * discriminate.
  - intros r. destruct (collect_types json_loads kept []) as [e'|types];
      cbn [bind]; [discriminate|].
    destruct (Json.list_set types) as [e'|l] eqn:El; cbn [bind ret];
      [discriminate|].
    intros H. injection H as <-. cbn [json_ld_count schema_types].
    split; [reflexivity|]. exists types. split; [reflexivity | exact El].
  - intros Hnil. rewrite Hnil. cbn [collect_types bind ret Json.list_set].
    eexists. split; [reflexivity|]. split; reflexivity.
Qed.

Lemma malformed_json_ld_skipped_but_counted_witness :
  malformed Samples.loads (Samples.ld_script "{oops") = true
  /\ collect_types Samples.loads
       [Samples.ld_script "{oops"; Samples.ld_script Samples.article_payload] []
     = collect_types Samples.loads [Samples.ld_script Samples.article_payload] []
  /\ exists r, check_schema_markup Samples.loads Samples.broken_json_ld_page = inr r
               /\ schema_types r = []
               /\ json_ld_count r
                  = Z.of_nat (count_elements json_ld_filter
                                Samples.broken_json_ld_page).
Proof.
  destruct (malformed_json_ld_skipped_but_counted
              Samples.loads Samples.broken_json_ld_page)
    as (Hskip & _ & _ & _ & Hall).
  split; [reflexivity|]. split.
  - apply Hskip. reflexivity.
  - apply Hall. reflexivity.
Defined.

(** ** Report name *)

Lemma run_audit_filename
    (parse : string -> node) (json_loads : string -> result json)
    (session_get : string -> Z -> result response)
    (requests_get : string -> list (string * string) -> Z -> result response)
    (int_of_float_times_100 : Q -> result Z) (int_of_str : string -> result Z)
    (now : string) (api_key : option string) (url_line keyword_line : string)
    (results : audit_results) (pdf_filename : string) :
  fst (run_audit parse json_loads session_get requests_get
         int_of_float_times_100 int_of_str now api_key url_line keyword_line)
  = Audited results pdf_filename ->
  pdf_filename = pdf_filename_of (PyStr.strip url_line).
Proof.
  unfold run_audit, pdf_filename_of.
  destruct (negb _); [discriminate|].
  destruct (PyStr.is_empty _); [discriminate|].
  destruct (get_page_content _ _ _) as [[[soup html]|] events];
    [|discriminate].
  destruct (check_schema_markup _ _); [discriminate|].
  destruct (get_pagespeed_insights _ _ _ _ _) as [insight api_events].
  cbn [fst]. intros H. injection H as _ <-. reflexivity.
Qed.

(** C9.  The report is named after the URL's network location with every
    occurrence of "www." removed, not only a leading one: for
    https://shop.www.example.com/ the file is
    SEO_Audit_Report_shop.example.com.pdf, although the host has no
    leading "www." and should have been kept whole; a host whose only
    "www." is the leading one is named as described. *)
Theorem report_name_drops_inner_www :
  netloc "https://shop.www.example.com/" = "shop.www.example.com"
  /\ strip_leading_www "shop.www.example.com" = "shop.www.example.com"
  /\ pdf_filename_of "https://shop.www.example.com/"
     = "SEO_Audit_Report_shop.example.com.pdf"
  /\ pdf_filename_of "https://shop.www.example.com/"
     <> "SEO_Audit_Report_"
        +:+ strip_leading_www (netloc "https://shop.www.example.com/")
        +:+ ".pdf"
  /\ (exists results,
        fst (run_audit (Samples.parser_of Samples.shoes_page) Samples.loads
               Samples.shoes_site Samples.unreachable_api Samples.no_float
               Samples.no_int "2026-01-01 00:00:00" None
               "https://shop.www.example.com/" "shoes")
        = Audited results "SEO_Audit_Report_shop.example.com.pdf")
  /\ pdf_filename_of "https://www.example.com/shop?page=2"
     = "SEO_Audit_Report_"
       +:+ strip_leading_www (netloc "https://www.example.com/shop?page=2")
       +:+ ".pdf".
Proof.
  split; [reflexivity|]. split; [reflexivity|]. split; [reflexivity|].
  split; [discriminate|]. split; [|reflexivity].
  eexists. reflexivity.
Qed.

(** ** Performance enrichment *)

Section EnricherFacts.

Variable requests_get : string -> list (string * string) -> Z -> result response.
Variable int_of_float_times_100 : Q -> result Z.
Variable int_of_str : string -> result Z.

Let insights := get_pagespeed_insights requests_get int_of_float_times_100 int_of_str.
Let attempt := pagespeed_try requests_get int_of_float_times_100 int_of_str.

Lemma insights_of_attempt (key url : string) :
  key <> EmptyString ->
  fst (insights (Some key) url)
  = match attempt url key with
    | inr insight => Some insight
    | inl _ => None
    end.
Proof.
  intros Hk. apply is_empty_false in Hk.
  unfold insights, get_pagespeed_insights. rewrite Hk. fold (attempt url key).
  destruct (attempt url key) as [[cls msg]|insight]; [destruct cls|];
    reflexivity.
Qed.

Lemma attempt_request_fails (key url : string) (e : exn) :
  requests_get pagespeed_api_url (pagespeed_params url key) 60 = inl e ->
  attempt url key = inl e.
Proof. intros H. unfold attempt, pagespeed_try. rewrite H. reflexivity. Qed.

Lemma attempt_http_error (key url : string) (resp : response) :
  requests_get pagespeed_api_url (pagespeed_params url key) 60 = inr resp ->
  400 <= status_code resp < 600 ->
  exists e, attempt url key = inl e.
Proof.
  intros H Hs. unfold attempt, pagespeed_try. rewrite H. cbn [bind].
  unfold raise_for_status.
  replace ((400 <=? status_code resp) && (status_code resp <? 600)) with true
    by (symmetry; apply andb_true_iff; split; lia).
  eexists. reflexivity.
Qed.




End EnricherFacts.





(** ** PDF wrapping *)

Lemma no_space_app (a b : string) :
  no_space (a +:+ b) = no_space a && no_space b.
Proof.
  induction a as [|c a IH]; [reflexivity|].
  rewrite append_cons. cbn [no_space]. rewrite IH, andb_assoc. reflexivity.
Qed.

(** [split] yields words. *)
Lemma split_words (s : string) :
  Forall (fun w => is_word w = true) (PyStr.split s).
Proof.
  induction s as [|c s IH]; [constructor|].
  cbn [PyStr.split]. destruct (PyStr.isspace c) eqn:Ec; [exact IH|].
  assert (Hc : is_word (String c EmptyString) = true)
    by (unfold is_word; cbn; rewrite Ec; reflexivity).
  destruct (PyStr.split s) as [|w ws]; [constructor; [exact Hc | constructor]|].
  inversion IH as [|? ? Hw Hws]; subst.
  destruct (PyStr.starts_word s).
  - constructor; [|exact Hws].
    unfold is_word in *. cbn [PyStr.is_empty negb no_space andb].
    rewrite Ec. apply andb_true_iff in Hw as [_ Hw]. exact Hw.
  - constructor; [exact Hc | exact IH].
Qed.

Lemma line_of_snoc (group : list string) (w : string) :
  line_of (group ++ [w]) = line_of group +:+ w +:+ " ".
Proof.
  unfold line_of. rewrite map_app, concat_empty_app. reflexivity.
Qed.

Lemma line_of_cons (w : string) (group : list string) :
  line_of (w :: group) = (w +:+ " ") +:+ line_of group.
Proof. unfold line_of. rewrite map_cons, concat_empty_cons. reflexivity. Qed.

Lemma join_cons_cons (w w' : string) (l : list string) :
  PyStr.join " " (w :: w' :: l) = w +:+ " " +:+ PyStr.join " " (w' :: l).
Proof. reflexivity. Qed.

(** The line under construction with the next word appended is the
    space-joined group. *)
Lemma join_snoc (group : list string) (w : string) :
  PyStr.join " " (group ++ [w]) = line_of group +:+ w.
Proof.
  induction group as [|w0 group IH]; [reflexivity|].
  rewrite line_of_cons, !append_assoc, <- IH.
  destruct group; reflexivity.
Qed.

Lemma rstrip_app_space (s : string) :
  PyStr.rstrip (s +:+ " ") = PyStr.rstrip s.
Proof.
  induction s as [|c s IH]; [reflexivity|].
  rewrite append_cons. cbn [PyStr.rstrip]. rewrite IH. reflexivity.
Qed.

Lemma rstrip_no_space (w : string) :
  no_space w = true -> PyStr.rstrip w = w.
Proof.
  induction w as [|c w IH]; [reflexivity|].
  cbn [no_space PyStr.rstrip]. intros H. apply andb_true_iff in H as [Hc Hw].
  apply negb_true_iff in Hc. rewrite Hc, (IH Hw). reflexivity.
Qed.

Lemma is_empty_app_word (s w : string) :
  is_word w = true -> PyStr.is_empty (s +:+ w) = false.
Proof.
  unfold is_word. intros H. apply andb_true_iff in H as [H _].
  apply negb_true_iff in H. destruct s; [exact H | reflexivity].
Qed.

Lemma rstrip_app_word (s w : string) :
  is_word w = true -> PyStr.rstrip (s +:+ w) = s +:+ w.
Proof.
  intros Hw. induction s as [|c s IH].
  - apply rstrip_no_space. unfold is_word in Hw.
    apply andb_true_iff in Hw as [_ Hw]. exact Hw.
  - rewrite append_cons. cbn [PyStr.rstrip].
    rewrite IH, (is_empty_app_word s w Hw), andb_false_r. reflexivity.
Qed.

Lemma lstrip_starts_word (s : string) :
  PyStr.starts_word s = true -> PyStr.lstrip s = s.
Proof.
  destruct s as [|c s]; [reflexivity|].
  cbn [PyStr.starts_word PyStr.lstrip]. intros H.
  apply negb_true_iff in H. rewrite H. reflexivity.
Qed.

Lemma starts_word_app (a b : string) :
  PyStr.starts_word a = true -> PyStr.starts_word (a +:+ b) = true.
Proof. destruct a; [discriminate | intros H; exact H]. Qed.

Lemma word_starts_word (w : string) :
  is_word w = true -> PyStr.starts_word w = true.
Proof.
  unfold is_word. destruct w as [|c w]; [discriminate|].
  cbn [PyStr.is_empty negb no_space andb PyStr.starts_word].
  intros H. apply andb_true_iff in H as [H _]. exact H.
Qed.

Lemma line_word_starts_word (group : list string) (w : string) :
  Forall (fun w => is_word w = true) group ->
  is_word w = true ->
  PyStr.starts_word (line_of group +:+ w) = true.
Proof.
  intros Hg Hw. destruct Hg as [|w0 group Hw0 _].
  - apply word_starts_word. exact Hw.
  - rewrite line_of_cons, !append_assoc.
    apply starts_word_app, word_starts_word. exact Hw0.
Qed.

(** Stripping the line under construction gives its words joined by
    single spaces. *)
Lemma strip_line_of (group : list string) :
  Forall (fun w => is_word w = true) group ->
  PyStr.strip (line_of group) = PyStr.join " " group.
Proof.
  destruct group as [|w0 group0] using rev_ind; [reflexivity|].
  intros H. apply Forall_app in H as [Hg Hw].
  inversion Hw as [|? ? Hw' _]; subst.
  rewrite line_of_snoc, join_snoc, <- append_assoc. unfold PyStr.strip.
  rewrite lstrip_starts_word
    by (apply starts_word_app, line_word_starts_word; assumption).
  rewrite rstrip_app_space. apply rstrip_app_word. exact Hw'.
Qed.

Lemma join_word_not_empty (w : string) (group : list string) :
  is_word w = true -> PyStr.is_empty (PyStr.join " " (w :: group)) = false.
Proof.
  intros Hw. unfold is_word in Hw. apply andb_true_iff in Hw as [Hw _].
  apply negb_true_iff in Hw.
  destruct group; [exact Hw|].
  rewrite join_cons_cons. destruct w; [discriminate | reflexivity].
Qed.

(** The loop on strings and the loop on groups write the same cells. *)
Lemma wrap_loop_groups (budget : Z) (words group : list string) :
  Forall (fun w => is_word w = true) words ->
  Forall (fun w => is_word w = true) group ->
  wrap_loop budget words (line_of group)
  = map cell_of (wrap_groups budget words group).
Proof.
  intros Hwords. revert group.
  induction Hwords as [|word rest Hword _ IH]; intros group Hgroup.
  - cbn [wrap_loop wrap_groups]. rewrite strip_line_of by exact Hgroup.
    destruct group as [|w group]; [reflexivity|].
    inversion Hgroup; subst.
    rewrite join_word_not_empty by assumption. reflexivity.
  - cbn [wrap_loop wrap_groups].
    destruct (PyStr.len (line_of group +:+ word) <? budget).
    + rewrite <- line_of_snoc. apply IH.
      apply Forall_app. split; [exact Hgroup | constructor; [exact Hword | constructor]].
    + cbn [map]. rewrite strip_line_of by exact Hgroup. f_equal.
      apply (IH [word]). constructor; [exact Hword | constructor].
Qed.

Lemma wrap_groups_concat (budget : Z) (words group : list string) :
  concat (wrap_groups budget words group) = group ++ words.
Proof.
  revert group; induction words as [|word rest IH]; intros group.
  - cbn [wrap_groups]. destruct group; [reflexivity|].
    cbn [concat]. reflexivity.
  - cbn [wrap_groups].
    destruct (PyStr.len (line_of group +:+ word) <? budget).
    + rewrite IH, <- app_assoc. reflexivity.
    + cbn [concat]. rewrite IH. reflexivity.
Qed.

Lemma wrap_groups_fit (budget : Z) (words group : list string) :
  fits budget group ->
  Forall (fits budget) (wrap_groups budget words group).
Proof.
  revert group; induction words as [|word rest IH]; intros group Hfit.
  - cbn [wrap_groups]. destruct group; constructor; [exact Hfit | constructor].
  - cbn [wrap_groups].
    destruct (PyStr.len (line_of group +:+ word) <? budget) eqn:E.
    + apply IH. left. rewrite join_snoc. lia.
    + constructor; [exact Hfit|]. apply IH. right. eexists; reflexivity.
Qed.

(** C8, as the code has it.  The wrapping loop adds a word to the current
    line while the line with that word is shorter than the budget and
    otherwise starts a new line with it; the cells written are the words
    of the text, in order and whole, grouped into lines; and every line
    is shorter than the budget or made of a single word, so that no line
    exceeds the budget when no word does.  (The title and the meta
    description are wrapped with budget 65, each H1 text with 55; the
    length of a line is taken without its two-space indent.) *)
Theorem wrapping_keeps_words_whole (budget : Z) (s : string) :
  0 < budget ->
  (forall words line word,
      wrap_loop budget (word :: words) line
      = if PyStr.len (line +:+ word) <? budget
        then wrap_loop budget words (line +:+ word +:+ " ")
        else ("  " +:+ PyStr.strip line)
             :: wrap_loop budget words (word +:+ " "))
  /\ exists groups,
       wrap_text budget s = map cell_of groups
       /\ concat groups = PyStr.split s
       /\ Forall (fits budget) groups
       /\ ((forall w, In w (PyStr.split s) -> PyStr.len w <= budget) ->
           Forall (fun g => PyStr.len (PyStr.join " " g) <= budget) groups).
Proof.
  intros Hb. split; [reflexivity|].
  exists (wrap_groups budget (PyStr.split s) []).
  assert (Hfit : Forall (fits budget) (wrap_groups budget (PyStr.split s) [])).
  { apply wrap_groups_fit. left. change (0 < budget). exact Hb. }
  split; [|split; [|split]].
  - unfold wrap_text. change EmptyString with (line_of []).
    apply wrap_loop_groups; [apply split_words | constructor].
  - apply wrap_groups_concat.
  - exact Hfit.
  - intros Hw. apply List.Forall_forall. intros g Hg.
    pose proof (proj1 (List.Forall_forall _ _) Hfit g Hg) as [Hlt|[w ->]].
    + lia.
    + cbn [PyStr.join]. apply Hw.
      change (PyStr.split s) with ([] ++ PyStr.split s).
      rewrite <- (wrap_groups_concat budget (PyStr.split s) []).
      apply in_concat. exists [w]. split; [exact Hg | left; reflexivity].
Qed.

Lemma wrapping_keeps_words_whole_witness :
  exists groups,
    wrap_text 65 Samples.long_title = map cell_of groups
    /\ concat groups = PyStr.split Samples.long_title
    /\ Forall (fits 65) groups
    /\ Forall (fun g => PyStr.len (PyStr.join " " g) <= 65) groups.
Proof.
  destruct (wrapping_keeps_words_whole 65 Samples.long_title ltac:(lia))
    as (_ & groups & Hcells & Hwords & Hfit & Hbound).
  exists groups. split; [exact Hcells|]. split; [exact Hwords|].
  split; [exact Hfit|]. apply Hbound.
  intros w Hw. vm_compute in Hw.
  repeat (destruct Hw as [<-|Hw]; [vm_compute; discriminate|]).
  destruct Hw.
Defined.

(** C8, as stated, fails: a title made of one word of 71 characters is
    wrapped into an empty line and a line of 71 characters, above the
    budget of 65. *)
Lemma long_word_exceeds_budget :
  PyStr.split Samples.long_word = [Samples.long_word]
  /\ PyStr.len Samples.long_word = 71
  /\ wrap_text 65 Samples.long_word = ["  "; "  " +:+ Samples.long_word]
  /\ pdf_title Samples.long_word
     = ["Title:"; "  "; "  " +:+ Samples.long_word; "Length: 71 characters"].
Proof. repeat split; reflexivity. Qed.

(** * Further properties of the code *)

(** ** Counting inside a part of the text *)

Lemma drop_empty (k : nat) : PyStr.drop k EmptyString = EmptyString.
Proof. destruct k; reflexivity. Qed.

Lemma drop_drop (a b : nat) (s : string) :
  PyStr.drop a (PyStr.drop b s) = PyStr.drop (b + a) s.
Proof.
  revert s; induction b as [|b IH]; intros s; [reflexivity|].
  destruct s as [|x s]; [rewrite !drop_empty; reflexivity|].
  cbn [PyStr.drop Nat.add]. apply IH.
Qed.

Lemma drop_length_le (k : nat) (s : string) :
  (String.length (PyStr.drop k s) <= String.length s)%nat.
Proof.
  revert s; induction k as [|k IH]; intros s; [reflexivity|].
  destruct s as [|x s]; [reflexivity|].
  cbn [PyStr.drop String.length]. specialize (IH s). lia.
Qed.

Lemma drop_app (k : nat) (t b : string) :
  (k <= String.length t)%nat ->
  PyStr.drop k (t +:+ b) = PyStr.drop k t +:+ b.
Proof.
  revert t; induction k as [|k IH]; intros t Hk; [reflexivity|].
  destruct t as [|x t]; [cbn in Hk; lia|].
  rewrite append_cons. cbn [PyStr.drop]. apply IH. cbn in Hk. lia.
Qed.

Lemma drop_app_length (a r : string) :
  PyStr.drop (String.length a) (a +:+ r) = r.
Proof.
  induction a as [|x a IH]; [reflexivity|].
  rewrite append_cons. cbn [String.length PyStr.drop]. exact IH.
Qed.

Lemma startswith_app (p t b : string) :
  PyStr.startswith p t = true -> PyStr.startswith p (t +:+ b) = true.
Proof.
  revert t; induction p as [|a p IH]; intros t H; [reflexivity|].
  destruct t as [|x t]; [discriminate|].
  rewrite append_cons. cbn [PyStr.startswith] in *.
  destruct (Ascii.eqb a x); [apply IH; exact H | discriminate].
Qed.

Section CountInside.

Variable sub : string.
Hypothesis sub_not_empty : sub <> EmptyString.

Let width := String.length sub.
Let occurrences (s : string) : nat := PyStr.count_from sub s 0.

Lemma occurrences_cons (x : ascii) (s : string) :
  occurrences (String x s)
  = if PyStr.startswith sub (String x s)
    then S (occurrences (PyStr.drop (width - 1) s))
    else occurrences s.
Proof.
  unfold occurrences. cbn [PyStr.count_from].
  destruct (PyStr.startswith sub (String x s)); [|reflexivity].
  rewrite count_from_drop. reflexivity.
Qed.

(** Dropping characters at the front never adds matches, and dropping at
    most the width of the keyword loses at most one. *)
Lemma occurrences_drop (n : nat) (s : string) :
  (String.length s <= n)%nat ->
  (forall j, occurrences (PyStr.drop j s) <= occurrences s)%nat
  /\ (forall k, k <= width -> occurrences s <= S (occurrences (PyStr.drop k s)))%nat.
Proof.
  revert s; induction n as [|n IH]; intros s Hs.
  - destruct s as [|x s]; [|cbn in Hs; lia].
    split; intros k; rewrite drop_empty; intros; lia.
  - destruct s as [|x s].
    { split; intros k; rewrite drop_empty; intros; lia. }
    cbn [String.length] in Hs.
    assert (Hs' : (String.length s <= n)%nat) by lia.
    destruct (IH s Hs') as [IHa IHb].
    assert (Hstep : (occurrences s <= occurrences (String x s))%nat).
    { rewrite occurrences_cons.
      destruct (PyStr.startswith sub (String x s)); [|lia].
      apply IHb. unfold width. lia. }
    split.
    + intros [|j]; [cbn [PyStr.drop]; lia|].
      cbn [PyStr.drop]. specialize (IHa j). lia.
    + intros [|k] Hk; [cbn [PyStr.drop]; lia|].
      cbn [PyStr.drop]. rewrite occurrences_cons.
      destruct (PyStr.startswith sub (String x s)).
      * assert (Hd : (String.length (PyStr.drop k s) <= n)%nat)
          by (pose proof (drop_length_le k s); lia).
        destruct (IH _ Hd) as [IHd _].
        specialize (IHd (width - 1 - k)%nat).
        rewrite drop_drop in IHd.
        replace (k + (width - 1 - k))%nat with (width - 1)%nat in IHd by lia.
        lia.
      * specialize (IHb k). lia.
Qed.

Lemma occurrences_app_r (n : nat) (t b : string) :
  (String.length t <= n)%nat ->
  (occurrences t <= occurrences (t +:+ b))%nat.
Proof.
  revert t; induction n as [|n IH]; intros t Ht.
  - destruct t; [unfold occurrences; cbn; lia | cbn in Ht; lia].
  - destruct t as [|x t]; [unfold occurrences; cbn; lia|].
    cbn [String.length] in Ht.
    rewrite append_cons, !occurrences_cons, <- append_cons.
    destruct (PyStr.startswith sub (String x t)) eqn:E.
    + rewrite (startswith_app _ _ b E).
      apply startswith_length in E. cbn [String.length] in E.
      rewrite drop_app by (unfold width; lia).
      apply le_n_S, IH.
      pose proof (drop_length_le (width - 1) t). lia.
    + assert (H1 : (occurrences t <= occurrences (t +:+ b))%nat)
        by (apply IH; lia).
      destruct (PyStr.startswith sub (String x t +:+ b)) eqn:E'; [|exact H1].
      destruct (occurrences_drop (String.length (t +:+ b)) (t +:+ b)
                  (le_n _)) as [_ Hb].
      specialize (Hb (width - 1)%nat ltac:(lia)). lia.
Qed.

(** A part of a text holds at most as many matches as the text. *)
Lemma occurrences_inside (a t b : string) :
  (occurrences t <= occurrences (a +:+ t +:+ b))%nat.
Proof.
  transitivity (occurrences (t +:+ b)).
  - apply (occurrences_app_r (String.length t)). reflexivity.
  - destruct (occurrences_drop _ (a +:+ t +:+ b) (le_n _)) as [Ha _].
    specialize (Ha (String.length a)). rewrite drop_app_length in Ha.
    exact Ha.
Qed.

End CountInside.

Lemma count_inside (a t b sub : string) :
  sub <> EmptyString ->
  (PyStr.count t sub <= PyStr.count (a +:+ t +:+ b) sub)%nat.
Proof.
  intros H. unfold PyStr.count. apply is_empty_false in H. rewrite H.
  apply occurrences_inside.
Qed.

Lemma lower_app (a b : string) :
  PyStr.lower (a +:+ b) = PyStr.lower a +:+ PyStr.lower b.
Proof.
  induction a as [|x a IH]; [reflexivity|].
  rewrite append_cons. cbn [PyStr.lower]. rewrite IH. reflexivity.
Qed.

Lemma lower_not_empty (s : string) :
  s <> EmptyString -> PyStr.lower s <> EmptyString.
Proof. destruct s; [congruence | discriminate]. Qed.

(** ** The text of an element inside the text of the document *)

Lemma descendants_split (root n : node) :
  In n (descendants root) ->
  exists before after,
    descendants root = before ++ n :: descendants n ++ after.
Proof.
  induction root as [s|s|name attrs cs IH] using node_ind_forall;
    try (intros []).
  rewrite descendants_tag. intros Hin.
  apply in_flat_map in Hin as (c & Hc & Hn).
  apply in_split in Hc as (cs1 & cs2 & ->).
  rewrite flat_map_app. cbn [flat_map].
  apply Forall_app in IH as [_ IHc]. inversion IHc as [|? ? IHc' _]; subst.
  destruct Hn as [->|Hn].
  - exists (flat_map subtree cs1), (flat_map subtree cs2).
    reflexivity.
  - destruct (IHc' Hn) as (m1 & m2 & Hm).
    exists (flat_map subtree cs1 ++ c :: m1), (m2 ++ flat_map subtree cs2).
    unfold subtree at 2. rewrite Hm.
    repeat (rewrite <- app_assoc; cbn [app]). reflexivity.
Qed.

Lemma get_text_inside (root : node) (name : string)
    (attrs : gmap string string) (cs : list node) :
  In (Tag name attrs cs) (descendants root) ->
  exists a b, get_text root = a +:+ get_text (Tag name attrs cs) +:+ b.
Proof.
  intros Hin. destruct (descendants_split _ _ Hin) as (l1 & l2 & Hd).
  exists (String.concat EmptyString (map text_of l1)),
         (String.concat EmptyString (map text_of l2)).
  unfold get_text at 1. rewrite Hd.
  rewrite map_app, concat_empty_app, map_cons, concat_empty_cons.
  rewrite map_app, concat_empty_app. reflexivity.
Qed.

Lemma find_all_in (f : tag_filter) (root n : node) :
  In n (find_all f root) ->
  In n (descendants root) /\ selects f n = true.
Proof. unfold find_all. intros H. apply filter_In in H. exact H. Qed.

Lemma find_in (f : tag_filter) (root n : node) :
  find f root = Some n ->
  In n (descendants root) /\ selects f n = true.
Proof.
  unfold find. intros H. apply find_all_in.
  destruct (find_all f root); [discriminate|].
  injection H as ->. left. reflexivity.
Qed.

Lemma selected_is_tag (f : tag_filter) (n : node) :
  selects f n = true -> exists name attrs cs, n = Tag name attrs cs.
Proof. destruct n; try discriminate. intros _. eauto. Qed.

(** On the code points modelled, lower-casing the document lower-cases
    every element in the same way. *)
Lemma found_lowers_alike (f : tag_filter) (root n : node) :
  find f root = Some n -> lowers_alike root n.
Proof.
  intros Hf. apply find_in in Hf as [Hin Hsel].
  apply selected_is_tag in Hsel as (name & attrs & cs & ->).
  destruct (get_text_inside _ _ _ _ Hin) as (a & b & Ht).
  exists (PyStr.lower a), (PyStr.lower b).
  rewrite Ht, !lower_app. reflexivity.
Qed.

(** X1.  When lower-casing the page text lower-cases the title's part of
    it in the same way (always so for characters below U+0100, the range
    modelled), the title count never exceeds the total, so a keyword
    absent from the visible text gives title = 0 and body = 0.  For the
    headings count this fails even then: the text of a heading nested in
    another is counted twice, and the body count is clamped to 0. *)
Theorem title_count_within_total
    (parse : string -> node) (html_content keyword : string) :
  let soup := decompose_all script_or_style (parse html_content) in
  (forall title_tag,
      find (by_name "title") soup = Some title_tag ->
      lowers_alike soup title_tag) ->
  let r := calculate_keyword_frequency parse html_content keyword in
  title r <= total r
  /\ (total r = 0 -> title r = 0 /\ body r = 0)
  /\ keyword_frequency_of MoreSamples.nested_headings_page "seo"
     = {| total := 2; title := 0; headings := 3; body := 0 |}.
Proof.
  intros soup Halike r.
  assert (Ht : title r <= total r).
  { subst r. unfold calculate_keyword_frequency.
    destruct (PyStr.is_empty html_content); [cbn; lia|].
    destruct (PyStr.is_empty keyword) eqn:Ek; [cbn; lia|].
    cbn [orb]. unfold keyword_frequency_of. fold soup. cbn [title total].
    destruct (find (by_name "title") soup) as [t|] eqn:Ef; [|lia].
    destruct (Halike t eq_refl) as (a & b & ->).
    apply inj_le, count_inside, lower_not_empty, is_empty_false. exact Ek. }
  split; [exact Ht|]. split; [|reflexivity].
  intros H0.
  assert (Hpos : 0 <= title r /\ 0 <= headings r
                 /\ body r = Z.max 0 (total r - title r - headings r)).
  { subst r. unfold calculate_keyword_frequency.
    destruct (PyStr.is_empty html_content || PyStr.is_empty keyword);
      [cbn; lia|].
    unfold keyword_frequency_of. cbn [title headings body total].
    repeat split; try lia. destruct (find _ _); lia. }
  lia.
Qed.

Lemma title_count_within_total_witness :
  let r := calculate_keyword_frequency
             (Samples.parser_of Samples.shoes_page) "<html>...</html>" "shoes" in
  title r <= total r
  /\ (total r = 0 -> title r = 0 /\ body r = 0)
  /\ keyword_frequency_of MoreSamples.nested_headings_page "seo"
     = {| total := 2; title := 0; headings := 3; body := 0 |}.
Proof.
  apply (title_count_within_total
           (Samples.parser_of Samples.shoes_page) "<html>...</html>" "shoes").
  intros title_tag Hf. exact (found_lowers_alike _ _ _ Hf).
Defined.

(** ** Trimmed results *)

Lemma rstrip_idempotent (s : string) :
  PyStr.rstrip (PyStr.rstrip s) = PyStr.rstrip s.
Proof.
  induction s as [|c s IH]; [reflexivity|].
  cbn [PyStr.rstrip].
  destruct (PyStr.isspace c && PyStr.is_empty (PyStr.rstrip s)) eqn:E;
    [reflexivity|].
  cbn [PyStr.rstrip]. rewrite IH, E. reflexivity.
Qed.

Lemma lstrip_shape (s : string) :
  PyStr.lstrip s = EmptyString \/ PyStr.starts_word (PyStr.lstrip s) = true.
Proof.
  induction s as [|c s IH]; [left; reflexivity|].
  cbn [PyStr.lstrip]. destruct (PyStr.isspace c) eqn:E; [exact IH|].
  right. cbn [PyStr.starts_word]. rewrite E. reflexivity.
Qed.

Lemma rstrip_starts_word (t : string) :
  PyStr.starts_word t = true -> PyStr.starts_word (PyStr.rstrip t) = true.
Proof.
  destruct t as [|c t]; [discriminate|].
  cbn [PyStr.starts_word PyStr.rstrip]. intros H.
  apply negb_true_iff in H. rewrite H. cbn [andb PyStr.starts_word].
  rewrite H. reflexivity.
Qed.

(** What [strip] returns has no whitespace left at either end. *)
Lemma strip_trimmed (s : string) : trimmed (PyStr.strip s).
Proof.
  unfold trimmed, PyStr.strip.
  destruct (lstrip_shape s) as [H|H].
  - rewrite H. reflexivity.
  - rewrite (lstrip_starts_word _ (rstrip_starts_word _ H)).
    apply rstrip_idempotent.
Qed.

(** X2.  The title and the meta description handed to the reports never
    begin or end with whitespace, whether they come from the page or are
    the sentinel strings. *)
Theorem title_and_description_are_trimmed (soup : node) :
  trimmed (extract_title_tag soup)
  /\ trimmed (extract_meta_description soup).
Proof.
  unfold extract_title_tag, extract_meta_description. split.
  - destruct (find (by_name "title") soup); [apply strip_trimmed | reflexivity].
  - destruct (find _ soup) as [m|]; [|reflexivity].
    destruct (get m "content") as [c|]; [|reflexivity].
    destruct (PyStr.is_empty c); [reflexivity | apply strip_trimmed].
Qed.

(** X3.  The H1 analysis lists one text per h1 element, in the order of
    the count, and every text is trimmed. *)
Theorem h1_texts_match_count (soup : node) :
  let r := analyze_h1_tags soup in
  Z.of_nat (length (texts r)) = count r
  /\ length (texts r) = count_elements (by_name "h1") soup
  /\ Forall trimmed (texts r).
Proof.
  intros r. subst r. unfold analyze_h1_tags. cbn [texts count].
  rewrite length_map, find_all_length.
  split; [reflexivity|]. split; [reflexivity|].
  apply List.Forall_forall. intros t Ht. apply in_map_iff in Ht as (h & <- & _).
  apply strip_trimmed.
Qed.

(** ** Structured data: presence, the set of types, unhashable types *)

Lemma list_set_empty : Json.list_set [] = inr [].
Proof. reflexivity. Qed.

(** X4.  The check of a document without JSON-LD scripts never raises:
    it returns with no types.  Whenever the check returns, the microdata and RDFa counts are
    the numbers of elements carrying itemscope and typeof, schema is
    reported present exactly when one of the three counts is positive,
    and no types are listed when it is absent. *)
Theorem schema_presence_and_counts
    (json_loads : string -> result json) (soup : node) :
  (find_all json_ld_filter soup = [] ->
   exists r, check_schema_markup json_loads soup = inr r
             /\ schema_types r = [] /\ json_ld_count r = 0)
  /\ (forall r,
        check_schema_markup json_loads soup = inr r ->
        microdata_count r
        = Z.of_nat (count_elements (by_attr_present "itemscope") soup)
        /\ rdfa_count r
           = Z.of_nat (count_elements (by_attr_present "typeof") soup)
        /\ (has_schema r = true <->
            0 < json_ld_count r \/ 0 < microdata_count r \/ 0 < rdfa_count r)
        /\ (has_schema r = false -> schema_types r = [])).
Proof.
  unfold check_schema_markup. fold json_ld_filter.
  rewrite <- !find_all_length.
  split.
  - intros ->. cbn [collect_types bind ret]. rewrite list_set_empty.
    cbn [bind ret]. eexists. split; [reflexivity|]. split; reflexivity.
  - intros r.
    destruct (collect_types json_loads (find_all json_ld_filter soup) [])
      as [e|collected] eqn:Ec; cbn [bind]; [discriminate|].
    destruct (Json.list_set collected) as [e|types] eqn:El; cbn [bind ret];
      [discriminate|].
    intros H. injection H as <-.
    cbn [microdata_count rdfa_count has_schema json_ld_count schema_types].
    split; [reflexivity|]. split; [reflexivity|]. split.
    + rewrite !orb_true_iff, !Z.ltb_lt. tauto.
    + intros Hno. apply orb_false_iff in Hno as [Hno _].
      apply orb_false_iff in Hno as [Hno _].
      destruct (find_all json_ld_filter soup); [|cbn in Hno; discriminate].
      cbn in Ec. injection Ec as <-. cbn in El. injection El as <-.
      reflexivity.
Qed.

Lemma schema_presence_and_counts_witness :
  exists r, check_schema_markup Samples.loads Samples.shoes_page = inr r
            /\ schema_types r = [] /\ json_ld_count r = 0.
Proof.
  apply (schema_presence_and_counts Samples.loads Samples.shoes_page).
  reflexivity.
Defined.

Lemma json_eqb_refl (v : json) : Json.hashable v = true -> Json.eqb v v = true.
Proof.
  destruct v; cbn; try discriminate; intros _; try reflexivity.
  - apply Qeq_bool_iff. reflexivity.
  - apply Qeq_bool_iff. reflexivity.
  - apply Qeq_bool_iff. reflexivity.
  - apply eqb_reflx.
  - apply bool_decide_eq_true. reflexivity.
Qed.

Lemma json_eqb_trans (a b c : json) :
  Json.eqb a b = true -> Json.eqb b c = true -> Json.eqb a c = true.
Proof.
  unfold Json.eqb.
  destruct (Json.number a) as [x|] eqn:Ea, (Json.number b) as [y|] eqn:Eb,
    (Json.number c) as [z|] eqn:Ec; try discriminate.
  - rewrite !Qeq_bool_iff. intros H1 H2. rewrite H1. exact H2.
  - destruct a; try discriminate; destruct b; try discriminate;
      destruct c; try discriminate; try reflexivity.
    + intros H1 H2. apply eqb_prop in H1, H2. subst. apply eqb_reflx.
    + rewrite !bool_decide_eq_true. congruence.
Qed.

Lemma dedup_in (l : list json) (t : json) :
  In t (Json.dedup l) -> In t l.
Proof.
  induction l as [|x l IH]; [intros []|].
  cbn [Json.dedup]. intros [->|H]; [left; reflexivity|].
  apply filter_In in H as [H _]. right. apply IH. exact H.
Qed.

Lemma dedup_covers (l : list json) (t : json) :
  forallb Json.hashable l = true ->
  In t l ->
  exists t', In t' (Json.dedup l) /\ Json.eqb t' t = true.
Proof.
  induction l as [|x l IH]; [intros _ []|].
  cbn [forallb Json.dedup]. intros Hh Hin.
  apply andb_true_iff in Hh as [Hx Hl].
  destruct Hin as [->|Hin].
  - exists t. split; [left; reflexivity | apply json_eqb_refl; exact Hx].
  - destruct (IH Hl Hin) as (t' & Ht' & He).
    destruct (Json.eqb x t') eqn:Ex.
    + exists x. split; [left; reflexivity|].
      eapply json_eqb_trans; eassumption.
    + exists t'. split; [|exact He]. right.
      apply filter_In. split; [exact Ht' | rewrite Ex; reflexivity].
Qed.

Lemma distinct_filter (p : json -> bool) (l : list json) :
  distinct_types l -> distinct_types (List.filter p l).
Proof.
  unfold distinct_types. induction 1 as [|a l Ha _ IH]; [constructor|].
  cbn [List.filter]. destruct (p a); [|exact IH].
  constructor; [|exact IH].
  apply List.Forall_forall. intros b Hb. apply filter_In in Hb as [Hb _].
  exact (proj1 (List.Forall_forall _ _) Ha b Hb).
Qed.

Lemma dedup_distinct (l : list json) : distinct_types (Json.dedup l).
Proof.
  induction l as [|x l IH]; [constructor|].
  cbn [Json.dedup]. constructor.
  - apply List.Forall_forall. intros b Hb. apply filter_In in Hb as [_ Hb].
    apply negb_true_iff in Hb. exact Hb.
  - apply distinct_filter. exact IH.
Qed.

(** X5.  When the schema check returns, its types are the collected
    [@type] values as a set: every collected value is represented by an
    equal entry, every entry was collected, and no two entries are
    equal. *)
Theorem schema_types_form_a_set
    (json_loads : string -> result json) (soup : node) (r : schema_analysis) :
  check_schema_markup json_loads soup = inr r ->
  exists collected,
    collect_types json_loads (find_all json_ld_filter soup) [] = inr collected
    /\ (forall t, In t collected ->
          exists t', In t' (schema_types r) /\ Json.eqb t' t = true)
    /\ (forall t, In t (schema_types r) -> In t collected)
    /\ distinct_types (schema_types r).
Proof.
  unfold check_schema_markup. fold json_ld_filter.
  destruct (collect_types json_loads (find_all json_ld_filter soup) [])
    as [e|collected]; cbn [bind]; [discriminate|].
  unfold Json.list_set.
  destruct (forallb Json.hashable collected) eqn:Eh; cbn [bind ret raise];
    [|discriminate].
  intros H. injection H as <-. cbn [schema_types].
  exists collected. split; [reflexivity|]. split; [|split].
  - intros t Ht. apply dedup_covers; assumption.
  - apply dedup_in.
  - apply dedup_distinct.
Qed.

Lemma schema_types_form_a_set_witness :
  exists collected,
    collect_types MoreSamples.loads
      (find_all json_ld_filter MoreSamples.repeated_type_page) []
    = inr collected
    /\ (forall t, In t collected ->
          exists t', In t' [JStr "Article"] /\ Json.eqb t' t = true)
    /\ (forall t, In t [JStr "Article"] -> In t collected)
    /\ distinct_types [JStr "Article"].
Proof.
  exact (schema_types_form_a_set MoreSamples.loads
           MoreSamples.repeated_type_page
           {| has_schema := true; json_ld_count := 2; microdata_count := 0;
              rdfa_count := 0; schema_types := [JStr "Article"] |}
           eq_refl).
Defined.

Lemma collect_types_keeps (json_loads : string -> result json)
    (scripts : list node) (acc collected : list json) :
  collect_types json_loads scripts acc = inr collected ->
  (forall t, In t acc -> In t collected)
  /\ (forall script data t,
        In script scripts ->
        loads_script json_loads script = inr data ->
        In t (types_of_data data) ->
        In t collected).
Proof.
  revert acc; induction scripts as [|s rest IH]; intros acc.
  - cbn [collect_types ret]. intros H. injection H as <-.
    split; [auto | intros ? ? ? []].
  - cbn [collect_types].
    destruct (loads_script json_loads s) as [[cls msg]|data] eqn:El.
    + destruct cls; try discriminate; intros H;
        destruct (IH _ H) as [Hacc Hrest]; (split; [exact Hacc|]);
        intros script data t [<-|Hin] Hl Ht;
        try (rewrite El in Hl; discriminate); eauto.
    + intros H. destruct (IH _ H) as [Hacc Hrest]. split.
      * intros t Ht. apply Hacc, in_or_app. left. exact Ht.
      * intros script data' t [<-|Hin] Hl Ht; [|eauto].
        rewrite El in Hl. injection Hl as <-.
        apply Hacc, in_or_app. right. exact Ht.
Qed.

Lemma unhashable_message_cases (l : list json) :
  forallb Json.hashable l = false ->
  Json.unhashable_message l = "unhashable type: 'list'"
  \/ Json.unhashable_message l = "unhashable type: 'dict'".
Proof.
  induction l as [|x l IH]; [discriminate|].
  cbn [forallb]. intros H. apply andb_false_iff in H.
  destruct x; cbn [Json.unhashable_message Json.hashable] in *;
    try (left; reflexivity); try (right; reflexivity);
    destruct H as [H|H]; try discriminate H; apply IH; exact H.
Qed.

(** X6.  A JSON-LD object whose [@type] is a list or an object (an array
    of types is legal JSON-LD) makes the schema check raise: the check
    never returns a result for such a document, and unless a block raised
    before, the exception is the TypeError of [set], "unhashable type:
    'list'" or "unhashable type: 'dict'" after the first collected value
    that cannot be hashed. *)
Theorem unhashable_type_raises
    (json_loads : string -> result json) (soup : node) (script : node)
    (bindings : list (string * json)) (t : json) :
  In script (find_all json_ld_filter soup) ->
  loads_script json_loads script = inr (JDict bindings) ->
  Json.lookup "@type" bindings = Some t ->
  Json.hashable t = false ->
  (exists e, check_schema_markup json_loads soup = inl e)
  /\ (forall collected,
        collect_types json_loads (find_all json_ld_filter soup) []
        = inr collected ->
        check_schema_markup json_loads soup
        = inl (Exn TypeError (Json.unhashable_message collected))
        /\ (Json.unhashable_message collected = "unhashable type: 'list'"
            \/ Json.unhashable_message collected
               = "unhashable type: 'dict'")).
Proof.
  intros Hin Hl Ht Hh.
  assert (Hraise : forall collected,
             collect_types json_loads (find_all json_ld_filter soup) []
             = inr collected ->
             check_schema_markup json_loads soup
             = inl (Exn TypeError (Json.unhashable_message collected))
             /\ (Json.unhashable_message collected
                 = "unhashable type: 'list'"
                 \/ Json.unhashable_message collected
                    = "unhashable type: 'dict'")).
  { intros collected Hc.
    assert (Ef : forallb Json.hashable collected = false).
    { destruct (forallb Json.hashable collected) eqn:Ef; [|reflexivity].
      exfalso. destruct (collect_types_keeps _ _ _ _ Hc) as [_ Hk].
      assert (Htin : In t collected).
      { apply (Hk script (JDict bindings) t Hin Hl).
        cbn [types_of_data type_of_item]. rewrite Ht. left. reflexivity. }
      rewrite forallb_forall in Ef. specialize (Ef t Htin). congruence. }
    split; [|apply unhashable_message_cases; exact Ef].
    unfold check_schema_markup. fold json_ld_filter.
    rewrite Hc. cbn [bind]. unfold Json.list_set. rewrite Ef. reflexivity. }
  split; [|exact Hraise].
  destruct (collect_types json_loads (find_all json_ld_filter soup) [])
    as [e|collected] eqn:Ec.
  - exists e. unfold check_schema_markup. fold json_ld_filter.
    rewrite Ec. reflexivity.
  - eexists. apply (Hraise collected). reflexivity.
Qed.

Lemma unhashable_type_raises_witness :
  check_schema_markup MoreSamples.loads MoreSamples.list_type_page
  = inl (Exn TypeError "unhashable type: 'list'").
Proof.
  destruct (unhashable_type_raises MoreSamples.loads
              MoreSamples.list_type_page
              (Samples.ld_script MoreSamples.list_type_payload)
              [("@type", JList [JStr "Article"; JStr "NewsArticle"])]
              (JList [JStr "Article"; JStr "NewsArticle"])
              (or_introl eq_refl) eq_refl eq_refl eq_refl) as [_ H].
  exact (proj1 (H [JList [JStr "Article"; JStr "NewsArticle"]] eq_refl)).
Defined.

(** ** The page fetch and the requests of an audit *)

Lemma requests_of_app (a b : list event) :
  requests_of (a ++ b) = requests_of a ++ requests_of b.
Proof. apply List.filter_app. Qed.

Section FetchFacts.

Variable parse : string -> node.
Variable session_get : string -> Z -> result response.

Lemma page_requests (url : string) :
  requests_of (snd (get_page_content parse session_get url))
  = [HttpGet url [] 30].
Proof.
  unfold get_page_content.
  destruct (session_get url 30) as [[cls msg]|resp]; cbn [bind].
  - destruct cls; reflexivity.
  - destruct (raise_for_status resp) as [[cls msg]|[]]; cbn [bind ret];
      [destruct cls|]; reflexivity.
Qed.

Lemma raise_for_status_ok (resp : response) :
  ~ 400 <= status_code resp < 600 -> raise_for_status resp = inr tt.
Proof.
  intros H. unfold raise_for_status.
  replace ((400 <=? status_code resp) && (status_code resp <? 600)) with false
    by (symmetry; apply andb_false_iff; lia).
  reflexivity.
Qed.

Lemma raise_for_status_error (resp : response) :
  400 <= status_code resp < 600 ->
  raise_for_status resp = inl (Exn RequestException (http_error resp)).
Proof.
  intros H. unfold raise_for_status.
  replace ((400 <=? status_code resp) && (status_code resp <? 600)) with true
    by (symmetry; apply andb_true_iff; split; lia).
  reflexivity.
Qed.

Lemma raise_for_status_cases (resp : response) :
  (400 <= status_code resp < 600
   /\ raise_for_status resp = inl (Exn RequestException (http_error resp)))
  \/ (~ 400 <= status_code resp < 600 /\ raise_for_status resp = inr tt).
Proof.
  destruct (Z_le_dec 400 (status_code resp)) as [H1|H1];
    [destruct (Z_lt_dec (status_code resp) 600) as [H2|H2]|].
  - left. split; [lia | apply raise_for_status_error; lia].
  - right. split; [lia | apply raise_for_status_ok; lia].
  - right. split; [lia | apply raise_for_status_ok; lia].
Qed.

(** With a parser that accepts every body, the page fetch yields a page
    exactly when the request returns a response whose status is not 4xx
    or 5xx. *)
Lemma page_fetch_cases (url : string) :
  let fetched := get_page_content parse session_get url in
  requests_of (snd fetched) = [HttpGet url [] 30]
  /\ (forall resp,
        session_get url 30 = inr resp ->
        ~ 400 <= status_code resp < 600 ->
        fst fetched = Some (parse (text resp), text resp))
  /\ (forall resp,
        session_get url 30 = inr resp ->
        400 <= status_code resp < 600 ->
        fst fetched = None)
  /\ (forall e, session_get url 30 = inl e -> fst fetched = None)
  /\ (forall soup html,
        fst fetched = Some (soup, html) ->
        soup = parse html
        /\ exists resp, session_get url 30 = inr resp
                        /\ ~ 400 <= status_code resp < 600
                        /\ html = text resp).
Proof.
  intros fetched. split; [apply page_requests|].
  subst fetched. unfold get_page_content.
  split; [|split; [|split]].
  - intros resp H Hs. rewrite H. cbn [bind].
    rewrite (raise_for_status_ok resp Hs). reflexivity.
  - intros resp H Hs. rewrite H. cbn [bind].
    rewrite (raise_for_status_error resp Hs). reflexivity.
  - intros [cls msg] H. rewrite H. cbn [bind]. destruct cls; reflexivity.
  - intros soup html.
    destruct (session_get url 30) as [[cls msg]|resp]; cbn [bind];
      [destruct cls; discriminate|].
    destruct (raise_for_status_cases resp) as [[Hs ->]|[Hs ->]];
      cbn [bind ret fst]; [discriminate|].
    intros H. injection H as <- <-. split; [reflexivity|].
    exists resp. split; [reflexivity|]. split; [exact Hs | reflexivity].
Qed.

End FetchFacts.

Lemma page_requests_parsing
    (parse : string -> result node)
    (session_get : string -> Z -> result response) (url : string) :
  requests_of (snd (get_page_content_parsing parse session_get url))
  = [HttpGet url [] 30].
Proof.
  unfold get_page_content_parsing.
  destruct (session_get url 30) as [[cls msg]|resp]; cbn [bind].
  - destruct cls; reflexivity.
  - destruct (raise_for_status resp) as [[cls msg]|[]]; cbn [bind ret];
      [destruct cls; reflexivity|].
    destruct (parse (text resp)) as [[cls msg]|soup]; cbn [bind ret];
      [destruct cls|]; reflexivity.
Qed.

(** X7.  The page fetch makes exactly one request, a GET of the URL with
    a timeout of 30 seconds.  It yields a page exactly when the request
    returns a response whose status is not 4xx or 5xx and the parser
    accepts its body; the raw text is then the body and the document is
    what the parser built from it.  A request that raises, a 4xx/5xx
    status, or markup the parser rejects yields no page. *)
Theorem page_fetch_outcomes
    (parse : string -> result node)
    (session_get : string -> Z -> result response) (url : string) :
  let fetched := get_page_content_parsing parse session_get url in
  requests_of (snd fetched) = [HttpGet url [] 30]
  /\ (forall resp soup,
        session_get url 30 = inr resp ->
        ~ 400 <= status_code resp < 600 ->
        parse (text resp) = inr soup ->
        fst fetched = Some (soup, text resp))
  /\ (forall resp e,
        session_get url 30 = inr resp ->
        parse (text resp) = inl e ->
        fst fetched = None)
  /\ (forall resp,
        session_get url 30 = inr resp ->
        400 <= status_code resp < 600 ->
        fst fetched = None)
  /\ (forall e, session_get url 30 = inl e -> fst fetched = None)
  /\ (forall soup html,
        fst fetched = Some (soup, html) ->
        exists resp, session_get url 30 = inr resp
                     /\ ~ 400 <= status_code resp < 600
                     /\ html = text resp
                     /\ parse html = inr soup)
  /\ (forall accepting,
        (forall body, parse body = inr (accepting body)) ->
        fetched = get_page_content accepting session_get url).
Proof.
  intros fetched. split; [apply page_requests_parsing|].
  subst fetched. unfold get_page_content_parsing.
  split; [|split; [|split; [|split; [|split]]]].
  - intros resp soup H Hs Hp. rewrite H. cbn [bind].
    rewrite (raise_for_status_ok resp Hs). cbn [bind]. rewrite Hp.
    reflexivity.
  - intros resp [cls msg] H Hp. rewrite H. cbn [bind].
    destruct (raise_for_status resp) as [[cls' msg']|[]]; cbn [bind];
      [destruct cls'; reflexivity|].
    rewrite Hp. cbn [bind]. destruct cls; reflexivity.
  - intros resp H Hs. rewrite H. cbn [bind].
    rewrite (raise_for_status_error resp Hs). reflexivity.
  - intros [cls msg] H. rewrite H. cbn [bind]. destruct cls; reflexivity.
  - intros soup html.
    destruct (session_get url 30) as [[cls msg]|resp]; cbn [bind];
      [destruct cls; discriminate|].
    destruct (raise_for_status_cases resp) as [[Hs ->]|[Hs ->]];
      cbn [bind ret fst]; [discriminate|].
    destruct (parse (text resp)) as [[cls msg]|soup'] eqn:Ep;
      cbn [bind ret fst]; [destruct cls; discriminate|].
    intros H. injection H as <- <-.
    exists resp. split; [reflexivity|]. split; [exact Hs|].
    split; [reflexivity | exact Ep].
  - intros accepting Hacc. unfold get_page_content.
    destruct (session_get url 30) as [[cls msg]|resp]; cbn [bind];
      [reflexivity|].
    destruct (raise_for_status resp) as [[cls msg]|[]]; cbn [bind];
      [reflexivity|].
    rewrite Hacc. reflexivity.
Qed.

Lemma page_fetch_outcomes_witness :
  fst (get_page_content_parsing
         (fun body => ret (Samples.parser_of Samples.shoes_page body))
         Samples.shoes_site "https://example.com/")
  = Some (Samples.shoes_page, "<html>...</html>")
  /\ fst (get_page_content_parsing MoreSamples.rejecting_parser
            Samples.shoes_site "https://example.com/")
     = None.
Proof.
  split.
  - destruct (page_fetch_outcomes
                (fun body => ret (Samples.parser_of Samples.shoes_page body))
                Samples.shoes_site "https://example.com/") as (_ & H & _).
    apply (H {| status_code := 200; http_error := EmptyString;
                text := "<html>...</html>";
                json_body := raise RequestException "Expecting value" |});
      [reflexivity | cbn; lia | reflexivity].
  - destruct (page_fetch_outcomes MoreSamples.rejecting_parser
                Samples.shoes_site "https://example.com/")
      as (_ & _ & H & _).
    eapply H; reflexivity.
Defined.

Lemma insight_requests
    (requests_get : string -> list (string * string) -> Z -> result response)
    (f : Q -> result Z) (g : string -> result Z)
    (api_key : option string) (url : string) :
  requests_of (snd (get_pagespeed_insights requests_get f g api_key url))
  = match api_key with
    | Some key =>
        if PyStr.is_empty key then []
        else [HttpGet pagespeed_api_url (pagespeed_params url key) 60]
    | None => []
    end.
Proof.
  unfold get_pagespeed_insights. destruct api_key as [key|]; [|reflexivity].
  destruct (PyStr.is_empty key); [reflexivity|].
  destruct (pagespeed_try requests_get f g url key) as [[cls msg]|insight];
    [destruct cls|]; reflexivity.
Qed.

(** X8.  An audit makes no request when the URL or the keyword is
    rejected: it only prints its header and the rejection.  Otherwise it
    makes the page request first, and the performance request (the stored
    key, the URL and the category as parameters, timeout 60) only once
    the page is fetched and the schema check has returned, and only when
    a non-empty key is stored. *)
Theorem audit_requests
    (parse : string -> node) (json_loads : string -> result json)
    (session_get : string -> Z -> result response)
    (requests_get : string -> list (string * string) -> Z -> result response)
    (f : Q -> result Z) (g : string -> result Z) (now : string)
    (api_key : option string) (url_line keyword_line : string) :
  let url := PyStr.strip url_line in
  let run := run_audit parse json_loads session_get requests_get f g now
               api_key url_line keyword_line in
  match fst run with
  | InvalidUrl =>
      snd run = audit_header ++ [invalid_url_line]
      /\ requests_of (snd run) = []
  | EmptyKeyword =>
      snd run = audit_header ++ [empty_keyword_line]
      /\ requests_of (snd run) = []
  | FetchFailed | Raised _ => requests_of (snd run) = [HttpGet url [] 30]
  | Audited _ _ =>
      requests_of (snd run)
      = HttpGet url [] 30
        :: match api_key with
           | Some key =>
               if PyStr.is_empty key then []
               else [HttpGet pagespeed_api_url (pagespeed_params url key) 60]
           | None => []
           end
  end.
Proof.
  intros url run. subst run. unfold run_audit. fold url.
  destruct (negb _); [split; reflexivity|].
  destruct (PyStr.is_empty _); [split; reflexivity|].
  pose proof (page_requests parse session_get url) as Hp.
  destruct (get_page_content parse session_get url)
    as [[[soup html]|] events]; cbn [fst snd] in *;
    [|rewrite !requests_of_app, Hp; reflexivity].
  destruct (check_schema_markup json_loads soup); cbn [fst snd];
    [rewrite !requests_of_app, Hp; reflexivity|].
  pose proof (insight_requests requests_get f g api_key url) as Hi.
  destruct (get_pagespeed_insights requests_get f g api_key url)
    as [insight api_events]; cbn [fst snd] in *.
  rewrite !requests_of_app, Hp, Hi. reflexivity.
Qed.

(** X9.  The results of a completed audit all come from the one fetched
    page: the URL and the keyword are the trimmed inputs (the URL starts
    with http:// or https://, the keyword is not empty), the report is
    named after the domain, every analysis is computed on the parse of
    the response body, the keyword counts are all zero when that body is
    empty, and the performance field is what the enricher returned. *)
Theorem audit_results_come_from_the_page
    (parse : string -> node) (json_loads : string -> result json)
    (session_get : string -> Z -> result response)
    (requests_get : string -> list (string * string) -> Z -> result response)
    (f : Q -> result Z) (g : string -> result Z) (now : string)
    (api_key : option string) (url_line keyword_line : string)
    (results : audit_results) (pdf_filename : string) :
  fst (run_audit parse json_loads session_get requests_get f g now
         api_key url_line keyword_line)
  = Audited results pdf_filename ->
  let url := PyStr.strip url_line in
  let keyword := PyStr.strip keyword_line in
  PyStr.startswith "http://" url || PyStr.startswith "https://" url = true
  /\ keyword <> EmptyString
  /\ r_url results = url /\ r_keyword results = keyword
  /\ r_audit_date results = now
  /\ r_domain results = domain_of url
  /\ pdf_filename = "SEO_Audit_Report_" +:+ r_domain results +:+ ".pdf"
  /\ r_pagespeed_data results
     = fst (get_pagespeed_insights requests_get f g api_key url)
  /\ exists resp,
       session_get url 30 = inr resp
       /\ ~ 400 <= status_code resp < 600
       /\ let soup := parse (text resp) in
          r_title_tag results = extract_title_tag soup
          /\ r_meta_description results = extract_meta_description soup
          /\ r_h1_analysis results = analyze_h1_tags soup
          /\ r_image_analysis results = analyze_images soup url
          /\ check_schema_markup json_loads soup
             = inr (r_schema_analysis results)
          /\ r_keyword_frequency results
             = if PyStr.is_empty (text resp)
               then {| total := 0; title := 0; headings := 0; body := 0 |}
               else keyword_frequency_of soup keyword.
Proof.
  intros Hrun url keyword. revert Hrun. unfold run_audit. fold url keyword.
  destruct (PyStr.startswith "http://" url || PyStr.startswith "https://" url)
    eqn:Eu; cbn [negb]; [|discriminate].
  destruct (PyStr.is_empty keyword) eqn:Ek; [discriminate|].
  pose proof (page_fetch_cases parse session_get url)
    as (_ & _ & _ & _ & Hpage).
  destruct (get_page_content parse session_get url)
    as [[[soup html]|] events]; cbn [fst] in Hpage; [|discriminate].
  destruct (Hpage soup html eq_refl) as (-> & resp & Hget & Hs & ->).
  destruct (check_schema_markup json_loads (parse (text resp)))
    as [e|schema] eqn:Esch; [discriminate|].
  destruct (get_pagespeed_insights requests_get f g api_key url)
    as [insight api_events] eqn:Ei.
  cbn [fst]. intros H. injection H as <- <-.
  cbn [r_url r_keyword r_audit_date r_domain r_pagespeed_data r_title_tag
       r_meta_description r_h1_analysis r_image_analysis r_schema_analysis
       r_keyword_frequency].
  split; [reflexivity|]. split; [apply is_empty_false; exact Ek|].
  do 6 (split; [reflexivity|]).
  exists resp. split; [exact Hget|]. split; [exact Hs|].
  do 4 (split; [reflexivity|]). split; [exact Esch|].
  unfold calculate_keyword_frequency. rewrite Ek, orb_false_r. reflexivity.
Qed.

Lemma audit_results_come_from_the_page_witness :
  exists results pdf_filename,
    fst (run_audit (Samples.parser_of Samples.shoes_page) Samples.loads
           Samples.shoes_site Samples.unreachable_api Samples.no_float
           Samples.no_int "2026-01-01 00:00:00" (Some "KEY")
           " https://www.example.com/ " " shoes ")
    = Audited results pdf_filename
    /\ r_url results = "https://www.example.com/"
    /\ r_keyword results = "shoes"
    /\ pdf_filename = "SEO_Audit_Report_" +:+ r_domain results +:+ ".pdf".
Proof.
  eexists. eexists. split; [reflexivity|].
  destruct (audit_results_come_from_the_page
              (Samples.parser_of Samples.shoes_page) Samples.loads
              Samples.shoes_site Samples.unreachable_api Samples.no_float
              Samples.no_int "2026-01-01 00:00:00" (Some "KEY")
              " https://www.example.com/ " " shoes " _ _ eq_refl)
    as (_ & _ & Hu & Hk & _ & _ & Hf & _).
  split; [exact Hu|]. split; [exact Hk | exact Hf].
Defined.

(** ** The performance score *)

Lemma json_get_dict (d : list (string * json)) (k : string) (default : json) :
  Json.get (JDict d) k default = inr (or_default (Json.lookup k d) default).
Proof. reflexivity. Qed.

(** X10.  When the performance endpoint answers with the expected
    objects, a score that is missing or false in a condition (null, 0,
    0.0, false, an empty string) is reported as 0, an integer score n as
    100 n, and the two first-contentful-paint fields are handed on as they
    are, with "N/A" and 0 in place of a missing one. *)
Theorem score_of_the_performance_category
    (requests_get : string -> list (string * string) -> Z -> result response)
    (f : Q -> result Z) (g : string -> result Z)
    (key url : string) (resp : response)
    (top lighthouse categories performance audits paint
       : list (string * json)) :
  key <> EmptyString ->
  requests_get pagespeed_api_url (pagespeed_params url key) 60 = inr resp ->
  ~ 400 <= status_code resp < 600 ->
  json_body resp = inr (JDict top) ->
  Json.lookup "lighthouseResult" top = Some (JDict lighthouse) ->
  Json.lookup "categories" lighthouse = Some (JDict categories) ->
  Json.lookup "performance" categories = Some (JDict performance) ->
  Json.lookup "audits" lighthouse = Some (JDict audits) ->
  Json.lookup "first-contentful-paint" audits = Some (JDict paint) ->
  let insight :=
    fst (get_pagespeed_insights requests_get f g (Some key) url) in
  let display := or_default (Json.lookup "displayValue" paint) (JStr "N/A") in
  let numeric := or_default (Json.lookup "numericValue" paint) (JInt 0) in
  (Json.truthy (or_default (Json.lookup "score" performance) JNull) = false ->
   insight = Some {| performance_score := 0; fcp := display;
                     fcp_numeric := numeric |})
  /\ (forall n,
        Json.lookup "score" performance = Some (JInt n) -> n <> 0 ->
        insight = Some {| performance_score := n * 100; fcp := display;
                          fcp_numeric := numeric |}).
Proof.
  intros Hk Hget Hs Hb Hl Hc Hp Ha Hf insight display numeric.
  subst insight. apply is_empty_false in Hk.
  unfold get_pagespeed_insights. rewrite Hk.
  unfold pagespeed_try. rewrite Hget. cbn [bind].
  rewrite (raise_for_status_ok resp Hs). cbn [bind]. rewrite Hb. cbn [bind].
  rewrite !json_get_dict, Hl. cbn [bind or_default].
  rewrite !json_get_dict, Hc, Ha. cbn [bind or_default].
  rewrite !json_get_dict, Hp, Hf. cbn [bind or_default].
  rewrite !json_get_dict. cbn [bind].
  split.
  - intros Hfalse. rewrite Hfalse. reflexivity.
  - intros n Hn Hn0. rewrite Hn. cbn [or_default Json.truthy].
    replace (n =? 0) with false by (symmetry; apply Z.eqb_neq; exact Hn0).
    reflexivity.
Qed.

Lemma score_of_the_performance_category_witness :
  fst (get_pagespeed_insights MoreSamples.null_score_api Samples.no_float
         Samples.no_int (Some "KEY") "https://example.com/")
  = Some {| performance_score := 0; fcp := JStr "1.2 s";
            fcp_numeric := JInt 1200 |}.
Proof.
  refine (proj1 (score_of_the_performance_category
                   MoreSamples.null_score_api Samples.no_float Samples.no_int
                   "KEY" "https://example.com/" _ _ _ _ _ _ _
                   ltac:(discriminate) eq_refl _ eq_refl eq_refl eq_refl
                   eq_refl eq_refl eq_refl) eq_refl).
  cbn. lia.
Defined.

(** ** The stored credential *)

Lemma get_api_key_state (api_key : option string) (line : string) :
  fst (get_api_key api_key line)
  = if PyStr.is_empty (PyStr.strip line) then api_key
    else Some (PyStr.strip line).
Proof.
  unfold get_api_key. destruct (PyStr.is_empty (PyStr.strip line)); reflexivity.
Qed.

Lemma enter_keys_snoc (api_key : option string) (lines : list string)
    (line : string) :
  enter_keys api_key (lines ++ [line])
  = if PyStr.is_empty (PyStr.strip line) then enter_keys api_key lines
    else Some (PyStr.strip line).
Proof.
  unfold enter_keys. rewrite fold_left_app. cbn [fold_left].
  apply get_api_key_state.
Qed.

(** X11.  Starting without a credential, after any series of visits to
    option 1 the stored credential is the last non-blank entry, trimmed:
    it is never the empty string, a blank entry keeps what was stored
    (it does not clear it), and nothing is stored only if every entry was
    blank. *)
Theorem stored_key_after_entries (lines : list string) :
  let key := enter_keys None lines in
  (key = None <-> Forall (fun l => PyStr.strip l = EmptyString) lines)
  /\ (forall k, key = Some k ->
        k <> EmptyString /\ trimmed k
        /\ exists l, In l lines /\ k = PyStr.strip l)
  /\ (forall line, PyStr.strip line = EmptyString ->
        enter_keys None (lines ++ [line]) = key)
  /\ (forall line, PyStr.strip line <> EmptyString ->
        enter_keys None (lines ++ [line]) = Some (PyStr.strip line)).
Proof.
  intros key. subst key. split; [|split; [|split]].
  - induction lines as [|line lines IH] using rev_ind.
    + split; [constructor | reflexivity].
    + rewrite enter_keys_snoc, Forall_app.
      destruct (PyStr.is_empty (PyStr.strip line)) eqn:E.
      * apply is_empty_spec in E. rewrite IH. split.
        -- intros H. split; [exact H | constructor; [exact E | constructor]].
        -- intros [H _]. exact H.
      * apply is_empty_false in E. split; [discriminate|].
        intros [_ H]. inversion H; subst. contradiction.
  - induction lines as [|line lines IH] using rev_ind; [discriminate|].
    intros k. rewrite enter_keys_snoc.
    destruct (PyStr.is_empty (PyStr.strip line)) eqn:E.
    + intros H. destruct (IH k H) as (H1 & H2 & l & Hl & Hk).
      split; [exact H1|]. split; [exact H2|].
      exists l. split; [apply in_or_app; left; exact Hl | exact Hk].
    + intros H. injection H as <-. apply is_empty_false in E.
      split; [exact E|]. split; [apply strip_trimmed|].
      exists line. split; [apply in_or_app; right; left|]; reflexivity.
  - intros line H. rewrite enter_keys_snoc.
    apply is_empty_spec in H. rewrite H. reflexivity.
  - intros line H. rewrite enter_keys_snoc.
    apply is_empty_false in H. rewrite H. reflexivity.
Qed.

Lemma stored_key_after_entries_witness :
  enter_keys None [" abc "; "   "] = Some "abc"
  /\ enter_keys None [" abc "; "   "; "xyz"] = Some "xyz".
Proof.
  destruct (stored_key_after_entries [" abc "]) as (_ & _ & Hblank & _).
  destruct (stored_key_after_entries [" abc "; "   "]) as (_ & _ & _ & Hnew).
  split.
  - apply (Hblank "   "). reflexivity.
  - apply (Hnew "xyz"). discriminate.
Defined.

(** ** The console report *)

Lemma take_length (n : nat) (s : string) :
  String.length (PyStr.take n s) = Nat.min n (String.length s).
Proof.
  revert s; induction n as [|n IH]; intros s; [reflexivity|].
  destruct s as [|c s]; [reflexivity|].
  cbn [PyStr.take String.length Nat.min]. rewrite IH. reflexivity.
Qed.

Lemma take_all (n : nat) (s : string) :
  (String.length s <= n)%nat -> PyStr.take n s = s.
Proof.
  revert s; induction n as [|n IH]; intros s Hs.
  - destruct s; [reflexivity | cbn in Hs; lia].
  - destruct s as [|c s]; [reflexivity|].
    cbn [PyStr.take]. rewrite IH; [reflexivity | cbn in Hs; lia].
Qed.

Lemma take_drop (n : nat) (s : string) :
  PyStr.take n s +:+ PyStr.drop n s = s.
Proof.
  revert s; induction n as [|n IH]; intros s; [reflexivity|].
  destruct s as [|c s]; [reflexivity|].
  cbn [PyStr.take PyStr.drop]. rewrite append_cons, IH. reflexivity.
Qed.

(** X12.  The console lists one line per H1 text; a text of at most 60
    characters is shown whole, a longer one is cut to its first 60
    characters followed by three dots, so that a preview never exceeds 63
    characters. *)
Theorem h1_previews (i : Z) (h1_texts : list string) (h1_text : string) :
  length (display_h1_texts i h1_texts) = length h1_texts
  /\ PyStr.len (h1_preview h1_text) <= 63
  /\ (PyStr.len h1_text <= 60 -> h1_preview h1_text = h1_text)
  /\ (60 < PyStr.len h1_text ->
      h1_preview h1_text = PyStr.take 60 h1_text +:+ "..."
      /\ PyStr.len (h1_preview h1_text) = 63).
Proof.
  split.
  { revert i; induction h1_texts as [|t rest IH]; intros i; [reflexivity|].
    cbn [display_h1_texts length]. rewrite IH. reflexivity. }
  unfold h1_preview, PyStr.len.
  destruct (60 <? Z.of_nat (String.length h1_text)) eqn:E.
  - apply Z.ltb_lt in E.
    assert (Hl : Z.of_nat (String.length (PyStr.take 60 h1_text +:+ "...")) = 63).
    { rewrite append_length, take_length. cbn [String.length]. lia. }
    split; [lia|]. split; [lia|]. intros _. split; [reflexivity | exact Hl].
  - apply Z.ltb_ge in E. rewrite append_empty_r.
    rewrite take_all by lia.
    split; [lia|]. split; [reflexivity | lia].
Qed.

Lemma h1_previews_witness :
  PyStr.len (h1_preview Samples.long_title) = 63
  /\ h1_preview "Shop Shoes" = "Shop Shoes".
Proof.
  destruct (h1_previews 1 [] Samples.long_title) as (_ & _ & _ & Hlong).
  destruct (h1_previews 1 [] "Shop Shoes") as (_ & _ & Hshort & _).
  split.
  - apply Hlong. reflexivity.
  - apply Hshort. discriminate.
Defined.





(** ** The PDF cells *)

(** X14.  The website line of the PDF shows the URL without its scheme;
    when that text is longer than 50 characters it is cut into exactly
    two pieces, the first of 50 characters, and the two pieces put
    together give the text back (nothing is dropped, the second piece is
    not cut again). *)
Theorem website_line_is_cut_once (url : string) :
  let parts := url_parts url in
  (PyStr.len parts <= 50 -> pdf_website url = ["Website: " +:+ parts])
  /\ (50 < PyStr.len parts ->
      exists first rest,
        pdf_website url = ["Website:"; "  " +:+ first; "  " +:+ rest]
        /\ first +:+ rest = parts
        /\ PyStr.len first = 50
        /\ PyStr.len rest = PyStr.len parts - 50).
Proof.
  intros parts. unfold pdf_website. fold parts. split.
  - intros H. apply Z.ltb_ge in H. rewrite H. reflexivity.
  - intros H. pose proof H as Hlt. apply Z.ltb_lt in H. rewrite H.
    exists (PyStr.take 50 parts), (PyStr.drop 50 parts).
    split; [reflexivity|]. split; [apply take_drop|].
    unfold PyStr.len in *.
    assert (Hfirst : String.length (PyStr.take 50 parts) = 50%nat)
      by (rewrite take_length; lia).
    split; [lia|].
    pose proof (f_equal String.length (take_drop 50 parts)) as Hsum.
    rewrite append_length in Hsum. lia.
Qed.

Lemma website_line_is_cut_once_witness :
  exists first rest,
    pdf_website
      "https://www.example.com/catalogue/shoes/running/trail?colour=blue&size=42"
    = ["Website:"; "  " +:+ first; "  " +:+ rest]
    /\ first +:+ rest
       = "www.example.com/catalogue/shoes/running/trail?colour=blue&size=42"
    /\ PyStr.len first = 50
    /\ PyStr.len rest = 65 - 50.
Proof.
  exact (proj2 (website_line_is_cut_once
                  "https://www.example.com/catalogue/shoes/running/trail?colour=blue&size=42")
           eq_refl).
Defined.

(** X15.  The schema block of the PDF never has more than nine cells,
    however many types were found: at most five types are listed, the
    first five in order; and it is the single cell "Schema Present: No"
    when no schema was found. *)
Theorem pdf_schema_is_bounded (py_str : json -> string)
    (schema : schema_analysis) :
  (length (pdf_schema py_str schema) <= 9)%nat
  /\ (has_schema schema = false ->
      pdf_schema py_str schema = ["Schema Present: No"])
  /\ (has_schema schema = true ->
      schema_types schema <> [] ->
      exists counts,
        length counts = 2%nat
        /\ pdf_schema py_str schema
           = "Schema Present: Yes" :: counts ++ "Schema Types:"
             :: map (fun t => "  - " +:+ py_str t)
                  (firstn 5 (schema_types schema))).
Proof.
  unfold pdf_schema. destruct (has_schema schema).
  - split; [|split; [discriminate|]].
    + destruct (schema_types schema) as [|t types]; cbn [length app]; [lia|].
      rewrite length_map.
      pose proof (firstn_le_length 5 (t :: types)).
      pose proof (length_firstn 5 (t :: types)). lia.
    + intros _ Hne. destruct (schema_types schema) as [|t types];
        [contradiction|].
      eexists. split; [|reflexivity]. reflexivity.
  - split; [cbn; lia|]. split; [reflexivity | discriminate].
Qed.

Lemma pdf_schema_is_bounded_witness :
  pdf_schema (fun _ => EmptyString)
    {| has_schema := false; json_ld_count := 0; microdata_count := 0;
       rdfa_count := 0; schema_types := [] |}
  = ["Schema Present: No"].
Proof.
  exact (proj1 (proj2 (pdf_schema_is_bounded (fun _ => EmptyString)
                         {| has_schema := false; json_ld_count := 0;
                            microdata_count := 0; rdfa_count := 0;
                            schema_types := [] |}))
           eq_refl).
Defined.

(** ** Blank lines in wrapped text *)

Lemma wrap_groups_not_empty (budget : Z) (words group : list string) :
  group <> [] ->
  Forall (fun g => g <> []) (wrap_groups budget words group).
Proof.
  revert group; induction words as [|word rest IH]; intros group Hg.
  - cbn [wrap_groups]. destruct group; [contradiction|].
    constructor; [exact Hg | constructor].
  - cbn [wrap_groups].
    destruct (PyStr.len (line_of group +:+ word) <? budget).
    + apply IH. destruct group; discriminate.
    + constructor; [exact Hg|]. apply IH. discriminate.
Qed.

Lemma cell_of_blank (group : list string) :
  Forall (fun w => is_word w = true) group ->
  cell_of group = "  " -> group = [].
Proof.
  intros Hw. destruct group as [|w group]; [reflexivity|].
  inversion Hw as [|? ? Hw' _]; subst.
  unfold cell_of. rewrite !append_cons.
  change (EmptyString +:+ PyStr.join " " (w :: group))
    with (PyStr.join " " (w :: group)).
  intros H. injection H as H.
  change (PyStr.join " " (w :: group) = EmptyString) in H.
  pose proof (join_word_not_empty w group Hw') as He.
  rewrite H in He. discriminate.
Qed.

(** X16.  Wrapping writes a blank line only as the first line, and only
    when the first word is at least as long as the budget (the empty
    current line is flushed before that word); no other cell is blank. *)
Theorem blank_line_only_before_a_long_first_word (budget : Z) (s : string) :
  match PyStr.split s with
  | [] => wrap_text budget s = []
  | w :: _ =>
      exists cells,
        ~ In "  " cells
        /\ wrap_text budget s
           = if PyStr.len w <? budget then cells else "  " :: cells
  end.
Proof.
  unfold wrap_text.
  pose proof (split_words s) as Hwords.
  pose proof (wrap_loop_groups budget (PyStr.split s) [] Hwords
                (List.Forall_nil _)) as Hloop.
  change (line_of []) with EmptyString in Hloop. rewrite Hloop.
  destruct (PyStr.split s) as [|w rest]; [reflexivity|].
  exists (map cell_of (wrap_groups budget rest [w])). split.
  - intros Hin. apply in_map_iff in Hin as (g & Hg & Hin).
    pose proof (wrap_groups_not_empty budget rest [w] ltac:(discriminate))
      as Hne.
    rewrite List.Forall_forall in Hne. apply (Hne g Hin).
    apply cell_of_blank; [|exact Hg].
    apply List.Forall_forall. intros x Hx.
    rewrite List.Forall_forall in Hwords. apply Hwords.
    change (w :: rest) with ([w] ++ rest).
    rewrite <- (wrap_groups_concat budget rest [w]).
    apply in_concat. exists g. split; assumption.
  - cbn [wrap_groups].
    change (line_of [] +:+ w) with w. change ([] ++ [w]) with [w].
    destruct (PyStr.len w <? budget); reflexivity.
Qed.

(** ** The report name *)

Lemma occurs_app (c : ascii) (a b : string) :
  occurs c (a +:+ b) = occurs c a || occurs c b.
Proof.
  induction a as [|x a IH]; [reflexivity|].
  rewrite append_cons. cbn [occurs]. rewrite IH, orb_assoc. reflexivity.
Qed.

Lemma occurs_replace_from (c : ascii) (old s : string) (skip : nat) :
  occurs c s = false ->
  occurs c (PyStr.replace_from old EmptyString s skip) = false.
Proof.
  revert skip; induction s as [|x s IH]; intros skip H; [reflexivity|].
  cbn [occurs] in H. apply orb_false_iff in H as [Hx Hs].
  cbn [PyStr.replace_from]. destruct skip as [|k]; [|apply IH; exact Hs].
  destruct (PyStr.startswith old (String x s)).
  - change (EmptyString +:+ ?r) with r. apply IH. exact Hs.
  - cbn [occurs]. rewrite Hx. apply IH. exact Hs.
Qed.

Lemma occurs_until_delimiter (c : ascii) (s : string) :
  is_delimiter c = true -> occurs c (until_delimiter s) = false.
Proof.
  intros Hc. induction s as [|x s IH]; [reflexivity|].
  cbn [until_delimiter]. destruct (is_delimiter x) eqn:Ex; [reflexivity|].
  cbn [occurs]. rewrite IH, orb_false_r.
  apply bool_decide_eq_false. intros ->. congruence.
Qed.

Lemma occurs_netloc (c : ascii) (url : string) :
  is_delimiter c = true -> occurs c (netloc url) = false.
Proof.
  intros Hc. unfold netloc.
  destruct (PyStr.startswith "http://" url);
    [apply occurs_until_delimiter; exact Hc|].
  destruct (PyStr.startswith "https://" url);
    [apply occurs_until_delimiter; exact Hc | reflexivity].
Qed.

(** X17.  Whatever the URL, the name of the report holds no slash, no
    question mark and no hash sign: the path, the query and the fragment
    of the URL never reach the file name, so the report is written in the
    working directory. *)
Theorem report_name_has_no_path (url : string) (c : ascii) :
  is_delimiter c = true ->
  occurs c (domain_of url) = false
  /\ occurs c (pdf_filename_of url) = false.
Proof.
  intros Hc.
  assert (Hd : occurs c (domain_of url) = false).
  { unfold domain_of, PyStr.replace. cbn [PyStr.is_empty].
    apply occurs_replace_from, occurs_netloc. exact Hc. }
  split; [exact Hd|].
  unfold pdf_filename_of. rewrite !occurs_app, Hd.
  unfold is_delimiter in Hc.
  apply orb_true_iff in Hc as [Hc|Hc];
    [apply orb_true_iff in Hc as [Hc|Hc]|];
    apply bool_decide_eq_true in Hc; subst c; reflexivity.
Qed.

Lemma report_name_has_no_path_witness :
  occurs "/" (domain_of "https://www.example.com/shoes/index.html?page=2#top")
  = false
  /\ occurs "/"
       (pdf_filename_of "https://www.example.com/shoes/index.html?page=2#top")
     = false.
Proof.
  apply (report_name_has_no_path
           "https://www.example.com/shoes/index.html?page=2#top" "/").
  reflexivity.
Defined.

(** ** What the reports say after a failed enrichment *)

(** X18.  When a credential is stored and the performance request fails
    (it raises, or the status is 4xx or 5xx), both reports print the same
    lines as when no credential is stored: the console says "Not
    available (API key not provided)" and the PDF "PageSpeed data not
    available", "(API key not provided)". *)
Theorem failed_enrichment_is_reported_as_missing_key
    (requests_get : string -> list (string * string) -> Z -> result response)
    (f : Q -> result Z) (g : string -> result Z) (py_str : json -> string)
    (key url : string) :
  key <> EmptyString ->
  let insight := fst (get_pagespeed_insights requests_get f g (Some key) url) in
  let answer := requests_get pagespeed_api_url (pagespeed_params url key) 60 in
  (exists e, answer = inl e)
  \/ (exists resp, answer = inr resp /\ 400 <= status_code resp < 600) ->
  display_pagespeed py_str insight
  = display_pagespeed py_str
      (fst (get_pagespeed_insights requests_get f g None url))
  /\ display_pagespeed py_str insight
     = ["⚡ PageSpeed Performance: Not available (API key not provided)"]
  /\ pdf_pagespeed py_str insight
     = ["PageSpeed data not available"; "(API key not provided)"].
Proof.
  intros Hk insight answer Hfail. subst insight answer.
  assert (Hnone : fst (get_pagespeed_insights requests_get f g (Some key) url)
                  = None).
  { rewrite insights_of_attempt by exact Hk.
    destruct Hfail as [[e He]|(resp & Hr & Hs)].
    - rewrite (attempt_request_fails _ _ _ _ _ _ He). reflexivity.
    - destruct (attempt_http_error _ f g _ _ _ Hr Hs) as [e ->]. reflexivity. }
  rewrite Hnone. split; [reflexivity|]. split; reflexivity.
Qed.

Lemma failed_enrichment_is_reported_as_missing_key_witness :
  display_pagespeed (fun _ => EmptyString)
    (fst (get_pagespeed_insights Samples.forbidden_api Samples.no_float
            Samples.no_int (Some "KEY") "https://example.com/"))
  = ["⚡ PageSpeed Performance: Not available (API key not provided)"]
  /\ pdf_pagespeed (fun _ => EmptyString)
       (fst (get_pagespeed_insights Samples.forbidden_api Samples.no_float
               Samples.no_int (Some "KEY") "https://example.com/"))
     = ["PageSpeed data not available"; "(API key not provided)"].
Proof.
  refine (proj2 (failed_enrichment_is_reported_as_missing_key
                   Samples.forbidden_api Samples.no_float Samples.no_int
                   (fun _ => EmptyString) "KEY" "https://example.com/"
                   ltac:(discriminate) _)).
  right. eexists. split; [reflexivity | cbn; lia].
Defined.

(** ** Where the code departs from its specification *)

(** C5.  A JSON-LD body that does not parse is not always passed over:
    for a body of 2000 opening brackets [json.loads] raises
    RecursionError, which [except (json.JSONDecodeError, TypeError)]
    does not catch, so the schema check raises and the audit ends there,
    where a body rejected with JSONDecodeError is skipped and counted. *)
Theorem deep_json_ld_block_is_not_skipped :
  find_all json_ld_filter MoreSamples.deep_page
  = [Samples.ld_script MoreSamples.deep_payload]
  /\ exn_cls_of (loads_script MoreSamples.deep_loads
                   (Samples.ld_script MoreSamples.deep_payload))
     = Some RecursionError
  /\ malformed MoreSamples.deep_loads
       (Samples.ld_script MoreSamples.deep_payload) = false
  /\ exn_cls_of (check_schema_markup MoreSamples.deep_loads
                   MoreSamples.deep_page)
     = Some RecursionError
  /\ (exists e,
        exn_cls e = RecursionError
        /\ fst (run_audit (Samples.parser_of MoreSamples.deep_page)
                  MoreSamples.deep_loads Samples.shoes_site
                  Samples.unreachable_api Samples.no_float Samples.no_int
                  "2026-01-01 00:00:00" None "https://example.com/" "shoes")
           = Raised e)
  /\ check_schema_markup Samples.loads Samples.broken_json_ld_page
     = inr {| has_schema := true; json_ld_count := 1; microdata_count := 0;
              rdfa_count := 0; schema_types := [] |}.
Proof.
  split; [vm_compute; reflexivity|]. split; [vm_compute; reflexivity|].
  split; [vm_compute; reflexivity|]. split; [vm_compute; reflexivity|].
  split; [|vm_compute; reflexivity].
  eexists. split; [|vm_compute; reflexivity]. reflexivity.
Qed.

(** C6.  A meta description whose content holds only whitespace is not
    treated like an empty one: the content is tested before it is
    trimmed, so the extractor returns the empty string instead of the
    sentinel, whereas an empty content gives the sentinel and the image
    analysis, which trims before it tests, counts an alt text of
    whitespace as missing. *)
Theorem blank_description_is_not_the_sentinel :
  find meta_description_filter MoreSamples.blank_description_page
  = Some (Tag "meta" {[ "name" := "description"; "content" := "   " ]} [])
  /\ PyStr.strip "   " = EmptyString
  /\ extract_meta_description MoreSamples.blank_description_page
     = EmptyString
  /\ extract_meta_description MoreSamples.blank_description_page
     <> "No meta description found"
  /\ extract_meta_description Samples.empty_description_page
     = "No meta description found"
  /\ extract_meta_description Samples.undescribed_page
     = "No meta description found"
  /\ missing_alt (analyze_images MoreSamples.blank_alt_page EmptyString) = 1.
Proof.
  split; [reflexivity|]. split; [reflexivity|]. split; [reflexivity|].
  split; [discriminate|]. split; [reflexivity|]. split; reflexivity.
Qed.
